(** * Construction progress tracker: the task service

    A shallow embedding of the two Flask services of the repository,
    [src/app/main.py] (pooled connections, timezone-aware validation) and
    [src/backend/app.py] (one connection per request), and of the properties
    their specification states about validation, the transactional protocol
    of each route and the handling of store errors.

    Conventions of the model.
    - Python [str] values are [string]s: sequences of code points below 256
      (the Latin-1 block); the character classes of [re] are written out for
      that range.
    - A request body is a JSON object, [gmap string json]; JSON numbers are
      integers (floating-point numbers are outside the model).
    - Python exceptions are values of [exn]; a computation returns
      [Ok v] or [Raise e].
    - The routes run in a state monad over [world]: the table, the pool, the
      route's local variable [conn] and the log of calls made on the pool and
      the connection.  Whether a call on the store raises is decided by a
      [faults] assignment, over which the theorems quantify. *)

From Stdlib Require Import ZArith NArith Ascii String List Bool Lia.
From Stdlib Require Import Sorting.Sorted Permutation.
From stdpp Require Import base option gmap strings list sorting fin_maps.

Local Open Scope string_scope.
Local Open Scope Z_scope.

Set Warnings "-register-all".

(** ** Python values *)

Inductive json : Type :=
  | JNull
  | JBool (b : bool)
  | JInt (n : Z)
  | JStr (s : string)
  | JArr (l : list json)
  | JObj (l : list (string * json)).

Inductive exn : Type :=
  | TypeError
  | KeyError (key : string)
  | AttributeError
  | StoreError (text : string).

Inductive result (A : Type) : Type :=
  | Ok (a : A)
  | Raise (e : exn).
Arguments Ok {A} a.
Arguments Raise {A} e.

(** [bool(v)]. *)
Definition truthy (v : json) : bool :=
  match v with
  | JNull => false
  | JBool b => b
  | JInt n => negb (n =? 0)
  | JStr s => negb (String.eqb s "")
  | JArr l => match l with [] => false | _ => true end
  | JObj l => match l with [] => false | _ => true end
  end.

(** [str(e)] of an exception. *)
Definition exn_text (e : exn) : string :=
  match e with
  | TypeError => "unsupported operand type"
  | KeyError k => "'" ++ k ++ "'"
  | AttributeError => "'NoneType' object has no attribute 'rollback'"
  | StoreError t => t
  end.

(** ** Character classes of [re] on [str] patterns *)

Definition code (c : ascii) : N := N_of_ascii c.

Definition between (lo hi : N) (c : ascii) : bool :=
  ((lo <=? code c) && (code c <=? hi))%N.

(** [\d]: decimal digits. *)
Definition is_digit (c : ascii) : bool := between 48 57 c.

(** [str.isalnum] below 256. *)
Definition is_alnum (c : ascii) : bool :=
  is_digit c || between 65 90 c || between 97 122 c
  || between 170 170 c || between 178 179 c || between 181 181 c
  || between 185 186 c || between 188 190 c
  || between 192 214 c || between 216 246 c || between 248 255 c.

(** [\w]. *)
Definition is_word (c : ascii) : bool := is_alnum c || between 95 95 c.

(** [\s]. *)
Definition is_space (c : ascii) : bool :=
  between 9 13 c || between 28 32 c || between 133 133 c || between 160 160 c.

(** The class [[\w\s\-()]] of the name pattern. *)
Definition name_char (c : ascii) : bool :=
  is_word c || is_space c || between 45 45 c || between 40 41 c.

(** [$]: at the end, or before a newline that ends the string. *)
Definition at_dollar (s : string) : bool :=
  match s with
  | "" => true
  | String c "" => (code c =? 10)%N
  | _ => false
  end.

(** [[\w\s\-()]{lo,hi}$] from the current position: greedy, with
    backtracking to a shorter repetition. *)
Fixpoint rep_name_char (lo hi : nat) (s : string) : bool :=
  match hi with
  | O => Nat.eqb lo 0 && at_dollar s
  | S hi' =>
      match s with
      | String c s' =>
          (name_char c && rep_name_char (Nat.pred lo) hi' s')
          || (Nat.eqb lo 0 && at_dollar s)
      | "" => Nat.eqb lo 0 && at_dollar s
      end
  end.

(** [re.match(r'^[\w\s\-()]{3,100}$', s)]. *)
Definition name_re_match (s : string) : bool := rep_name_char 3 100 s.

(** Lower case of a code point, as [re.IGNORECASE] compares the ASCII
    letters of a pattern. *)
Definition lower (c : ascii) : ascii :=
  if between 65 90 c then ascii_of_N (code c + 32) else c.

(** The literal [lit] matches at the start of [s], ignoring case. *)
Fixpoint prefix_ci (lit s : string) : bool :=
  match lit, s with
  | "", _ => true
  | String a lit', String b s' => Ascii.eqb a (lower b) && prefix_ci lit' s'
  | String _ _, "" => false
  end.

Definition denylist : list string :=
  [";"; "--"; "union"; "select"; "insert"; "update"; "delete"; "drop"].

(** [sql_injection_pattern.search(s)]: some alternative matches at some
    position. *)
Fixpoint sql_injection_search (s : string) : bool :=
  existsb (fun lit => prefix_ci lit s) denylist
  || match s with
     | "" => false
     | String _ s' => sql_injection_search s'
     end.

(** ** Dates *)

Record date : Type := mkDate { year : Z; month : Z; day : Z }.

Record datetime : Type := mkDatetime {
  dt_date : date;
  hour : Z; minute : Z; second : Z; microsecond : Z
}.

Definition is_leap (y : Z) : bool :=
  (y mod 4 =? 0) && (negb (y mod 100 =? 0) || (y mod 400 =? 0)).

Definition days_in_month (y m : Z) : Z :=
  if m =? 2 then (if is_leap y then 29 else 28)
  else if (m =? 4) || (m =? 6) || (m =? 9) || (m =? 11) then 30
  else 31.

(** The range check of the [date] constructor. *)
Definition valid_date (d : date) : bool :=
  (1 <=? year d) && (year d <=? 9999)
  && (1 <=? month d) && (month d <=? 12)
  && (1 <=? day d) && (day d <=? days_in_month (year d) (month d)).

Definition valid_datetime (t : datetime) : bool :=
  valid_date (dt_date t)
  && (0 <=? hour t) && (hour t <? 24)
  && (0 <=? minute t) && (minute t <? 60)
  && (0 <=? second t) && (second t <? 60)
  && (0 <=? microsecond t) && (microsecond t <? 1000000).

Definition date_lt (a b : date) : bool :=
  (year a <? year b)
  || ((year a =? year b)
      && ((month a <? month b)
          || ((month a =? month b) && (day a <? day b)))).

Definition time_of (t : datetime) : Z :=
  ((hour t * 60 + minute t) * 60 + second t) * 1000000 + microsecond t.

(** [a < b] on datetimes of one timezone. *)
Definition datetime_lt (a b : datetime) : bool :=
  date_lt (dt_date a) (dt_date b)
  || (negb (date_lt (dt_date b) (dt_date a)) && (time_of a <? time_of b)).

(** The value [strptime] builds from a date-only format: midnight. *)
Definition midnight (d : date) : datetime := mkDatetime d 0 0 0 0.

Definition digit_val (c : ascii) : Z := Z.of_N (code c) - 48.

(** [strptime]'s [%Y]: [\d\d\d\d]. *)
Definition parse_Y (s : string) : option (Z * string) :=
  match s with
  | String a (String b (String c (String d r))) =>
      if is_digit a && is_digit b && is_digit c && is_digit d
      then Some (((digit_val a * 10 + digit_val b) * 10 + digit_val c) * 10
                 + digit_val d, r)
      else None
  | _ => None
  end.

(** [strptime]'s [%m]: [1[0-2]|0[1-9]|[1-9]]. *)
Definition parse_m (s : string) : option (Z * string) :=
  match s with
  | String a r =>
      match r with
      | String b r' =>
          if (code a =? 49)%N && between 48 50 b then Some (10 + digit_val b, r')
          else if (code a =? 48)%N && between 49 57 b then Some (digit_val b, r')
          else if between 49 57 a then Some (digit_val a, r)
          else None
      | "" => if between 49 57 a then Some (digit_val a, r) else None
      end
  | "" => None
  end.

(** [strptime]'s [%d]: [3[0-1]|[1-2]\d|0[1-9]|[1-9]| [1-9]]. *)
Definition parse_d (s : string) : option (Z * string) :=
  match s with
  | String a r =>
      match r with
      | String b r' =>
          if (code a =? 51)%N && between 48 49 b then Some (30 + digit_val b, r')
          else if between 49 50 a && is_digit b
               then Some (digit_val a * 10 + digit_val b, r')
          else if (code a =? 48)%N && between 49 57 b then Some (digit_val b, r')
          else if between 49 57 a then Some (digit_val a, r)
          else if (code a =? 32)%N && between 49 57 b then Some (digit_val b, r')
          else None
      | "" => if between 49 57 a then Some (digit_val a, r) else None
      end
  | "" => None
  end.

Definition expect_hyphen (s : string) : option string :=
  match s with
  | String c r => if (code c =? 45)%N then Some r else None
  | "" => None
  end.

(** [datetime.strptime(s, '%Y-%m-%d')]; [None] is [ValueError]: the format
    does not match, data remains after it, or the date does not exist. *)
Definition strptime (s : string) : option date :=
  '(y, r1) ← parse_Y s;
  r2 ← expect_hyphen r1;
  '(m, r3) ← parse_m r2;
  r4 ← expect_hyphen r3;
  '(d, r5) ← parse_d r4;
  if String.eqb r5 "" && valid_date (mkDate y m d) then Some (mkDate y m d)
  else None.

Definition pad2 (n : Z) : string :=
  String (ascii_of_N (Z.to_N (48 + n / 10)))
    (String (ascii_of_N (Z.to_N (48 + n mod 10))) "").

Definition pad4 (n : Z) : string :=
  pad2 (n / 100) ++ pad2 (n mod 100).

(** The year as [%Y] writes it.  Python hands the format to [strftime] of
    the C library, which (glibc) writes the year of a [date], 1 to 9999, in
    decimal with no padding: 999, not 0999. *)
Definition year_text (y : Z) : string :=
  if y <? 10 then String (ascii_of_N (Z.to_N (48 + y))) ""
  else if y <? 100 then pad2 y
  else if y <? 1000
       then String (ascii_of_N (Z.to_N (48 + y / 100))) (pad2 (y mod 100))
  else pad4 y.

(** [d.strftime('%Y-%m-%d')]: month and day have two digits. *)
Definition strftime (d : date) : string :=
  year_text (year d) ++ "-" ++ pad2 (month d) ++ "-" ++ pad2 (day d).

(** ** Requests and responses *)

(** A decoded JSON object: [request.json]. *)
Abbreviation payload := (gmap string json).

(** [data.get(key, default)]. *)
Definition get (data : payload) (key : string) (default : json) : json :=
  match data !! key with
  | Some v => v
  | None => default
  end.

(** [data[key]]. *)
Definition getitem (data : payload) (key : string) : result json :=
  match data !! key with
  | Some v => Ok v
  | None => Raise (KeyError key)
  end.

(** [data.values()]. *)
Definition values (data : payload) : list json := (map_to_list data).*2.

(** A route's return value: a JSON body and a status code. *)
Definition response : Type := json * Z.

Definition error_body (text : string) : json := JObj [("error", JStr text)].
Definition message_body (text : string) : json := JObj [("message", JStr text)].

(** ** The store, the pool and the state of a running route *)

(** A row of the [tasks] table. *)
Record task : Type := mkTask {
  row_id : Z;
  row_name : string;
  row_progress : Z;
  row_assigned_to : option string;
  row_deadline : option date;
  row_priority : string
}.

(** The statements the routes send, with their parameters. *)
Inductive sql : Type :=
  | SelectTasks
  | InsertTask (name progress assigned_to deadline priority : json)
  | UpdateProgress (progress : json) (task_id : Z)
  | DeleteTask (task_id : Z).

(** The calls a route makes on the pool, the connection and the cursor. *)
Inductive op : Type :=
  | Getconn | Putconn            (* [pool.getconn], [pool.putconn] *)
  | Connect | ConnClose          (* [psycopg2.connect], [conn.close] *)
  | Cursor | CursorClose | Execute | Fetch | Commit | Rollback.

#[global] Instance op_eq_dec : EqDecision op.
Proof. solve_decision. Defined.

(** A connection handle. *)
Inductive connection : Type := Connection.

(** What [cursor.execute] leaves in the cursor. *)
Record cursor : Type := mkCursor {
  rowcount : Z;
  fetched : list task;
  returned : list Z
}.

Record world : Type := mkWorld {
  table : list task;            (* committed rows *)
  next_id : Z;                  (* the sequence behind [id] *)
  work : option (list task);    (* rows as seen by the open transaction *)
  in_use : nat;                 (* connections checked out of the pool *)
  conn : option connection;     (* the route's local variable [conn] *)
  calls : list (op * bool);     (* calls made, oldest first; [false]: raised *)
  logged : list string          (* [app.logger.error] *)
}.

Definition set_work (x : option (list task)) (w : world) : world :=
  mkWorld (table w) (next_id w) x (in_use w) (conn w) (calls w) (logged w).
Definition set_conn_var (c : option connection) (w : world) : world :=
  mkWorld (table w) (next_id w) (work w) (in_use w) c (calls w) (logged w).
Definition record_call (o : op) (ok : bool) (w : world) : world :=
  mkWorld (table w) (next_id w) (work w) (in_use w) (conn w)
    (calls w ++ [(o, ok)])%list (logged w).
Definition record_log (line : string) (w : world) : world :=
  mkWorld (table w) (next_id w) (work w) (in_use w) (conn w) (calls w)
    (logged w ++ [line])%list.

(** [maxconn=20] of the [ThreadedConnectionPool]. *)
Definition maxconn : nat := 20.

(** Rows visible on the connection. *)
Definition visible (w : world) : list task :=
  match work w with
  | Some rows => rows
  | None => table w
  end.

(** *** The store's side of a statement *)

(** Modelled from the spec: the schema of the [tasks] table is not under
    [src/]; the specification gives one table keyed by an auto-assigned
    integer [id] with columns name (text), progress (integer), assigned_to
    (nullable text), deadline (nullable date) and priority (text), and no
    further constraint.  The functions that follow say which parameter
    values a column of each type takes.  A [str] parameter reaches the
    engine as a quoted literal, which it reads as a value of the type of the
    column: for the integer column, as a number in decimal. *)
Definition as_text (v : json) : option string :=
  match v with JStr s => Some s | _ => None end.

(** The range of the integer type (32 bits). *)
Definition int4 (n : Z) : option Z :=
  if (-2147483648 <=? n) && (n <=? 2147483647) then Some n else None.

(** The blanks allowed around a number. *)
Definition is_blank (c : ascii) : bool := (code c =? 32)%N || between 9 13 c.

Fixpoint skip_blanks (s : string) : string :=
  match s with
  | String c s' => if is_blank c then skip_blanks s' else s
  | "" => ""
  end.

(** The digits at the start of [s], added to [acc], and what follows
    them. *)
Fixpoint read_digits (acc : Z) (s : string) : Z * string :=
  match s with
  | String c s' =>
      if is_digit c then read_digits (acc * 10 + digit_val c) s' else (acc, s)
  | "" => (acc, "")
  end.

(** A quoted literal read as an integer: blanks, an optional sign, at least
    one digit, blanks. *)
Definition integer_of_text (s : string) : option Z :=
  let s1 := skip_blanks s in
  let '(negative, s2) :=
    match s1 with
    | String c r =>
        if (code c =? 45)%N then (true, r)
        else if (code c =? 43)%N then (false, r)
        else (false, s1)
    | "" => (false, "")
    end in
  match s2 with
  | String c _ =>
      if is_digit c then
        let '(n, rest) := read_digits 0 s2 in
        if String.eqb (skip_blanks rest) ""
        then int4 (if negative then - n else n)
        else None
      else None
  | "" => None
  end.

Definition as_integer (v : json) : option Z :=
  match v with
  | JInt n => int4 n
  | JStr s => integer_of_text s
  | _ => None
  end.

Definition as_nullable_text (v : json) : option (option string) :=
  match v with
  | JNull => Some None
  | JStr s => Some (Some s)
  | _ => None
  end.

Definition as_nullable_date (v : json) : option (option date) :=
  match v with
  | JNull => Some None
  | JStr s => Some <$> strptime s
  | _ => None
  end.

(** [ORDER BY id]. *)
Definition id_le (a b : task) : Prop := row_id a <= row_id b.

#[global] Instance id_le_dec : RelDecision id_le.
Proof. intros a b. unfold id_le. apply _. Defined.

(** [WHERE id = task_id]. *)
Definition has_id (task_id : Z) (t : task) : bool := row_id t =? task_id.

(** [SET progress = p]. *)
Definition with_progress (p : Z) (t : task) : task :=
  mkTask (row_id t) (row_name t) p (row_assigned_to t) (row_deadline t)
    (row_priority t).

(** The number of rows a statement on [task_id] affects. *)
Definition count_id (task_id : Z) (rows : list task) : Z :=
  Z.of_nat (length (List.filter (has_id task_id) rows)).

(** Modelled from the spec: the relational engine is an external
    collaborator; this is the effect of each of the four statements of the
    routes on the rows and on the sequence behind [id], and the cursor it
    leaves.  [None]: the store reports an error.  The sequence is not
    reset by a rollback. *)
Definition run_sql (q : sql) (rows : list task) (next : Z)
  : option (list task * Z * cursor) :=
  match q with
  | SelectTasks =>
      let out := merge_sort id_le rows in
      Some (rows, next, mkCursor (Z.of_nat (length out)) out [])
  | InsertTask name progress assigned_to deadline priority =>
      n ← as_text name;
      p ← as_integer progress;
      a ← as_nullable_text assigned_to;
      d ← as_nullable_date deadline;
      pr ← as_text priority;
      Some ((rows ++ [mkTask next n p a d pr])%list, next + 1,
            mkCursor 1 [] [next])
  | UpdateProgress progress task_id =>
      p ← as_integer progress;
      Some (List.map (fun t => if has_id task_id t then with_progress p t else t)
              rows,
            next, mkCursor (count_id task_id rows) [] [])
  | DeleteTask task_id =>
      Some (List.filter (fun t => negb (has_id task_id t)) rows,
            next, mkCursor (count_id task_id rows) [] [])
  end.

(** *** The monad of the routes *)

Definition M (A : Type) : Type := world -> result A * world.

#[global] Instance M_ret : MRet M := fun A a w => (Ok a, w).

#[global] Instance M_bind : MBind M := fun A B k m w =>
  match m w with
  | (Ok a, w') => k a w'
  | (Raise e, w') => (Raise e, w')
  end.

Definition raise {A : Type} (e : exn) : M A := fun w => (Raise e, w).

Definition lift {A : Type} (r : result A) : M A := fun w => (r, w).

(** [try: body / except Exception as e: handler e]. *)
Definition try_except {A : Type} (body : M A) (handler : exn -> M A) : M A :=
  fun w =>
    match body w with
    | (Ok a, w') => (Ok a, w')
    | (Raise e, w') => handler e w'
    end.

(** [try: body / finally: final]: [final] runs on every exit of [body]. *)
Definition try_finally {A : Type} (body : M A) (final : M unit) : M A :=
  fun w =>
    match body w with
    | (r, w') =>
        match final w' with
        | (Ok _, w'') => (r, w'')
        | (Raise e, w'') => (Raise e, w'')
        end
    end.

Definition read_conn : M (option connection) := fun w => (Ok (conn w), w).
Definition assign_conn (c : option connection) : M unit :=
  fun w => (Ok tt, set_conn_var c w).

(** [app.logger.error(line)]. *)
Definition logger_error (line : string) : M unit :=
  fun w => (Ok tt, record_log line w).

Section Calls.

(** For each kind of call, whether the store makes it raise, and with which
    error text.  Closing a cursor, closing a connection and returning a
    connection to the pool do not raise. *)
Variable faults : op -> option string.

(** A call that raises when the store makes it, and otherwise runs [run]. *)
Definition store_call {A : Type} (o : op) (run : M A) : M A :=
  fun w =>
    match faults o with
    | Some text => (Raise (StoreError text), record_call o false w)
    | None => run (record_call o true w)
    end.

(** [pool.getconn()]. *)
Definition getconn : M connection :=
  fun w =>
    match faults Getconn with
    | Some text => (Raise (StoreError text), record_call Getconn false w)
    | None =>
        if (maxconn <=? in_use w)%nat
        then (Raise (StoreError "connection pool exhausted"),
              record_call Getconn false w)
        else (Ok Connection,
              record_call Getconn true
                (mkWorld (table w) (next_id w) (work w) (S (in_use w))
                   (conn w) (calls w) (logged w)))
    end.

(** [pool.putconn(conn)]: the connection goes back to the pool; work that
    was not committed is gone. *)
Definition putconn (c : connection) : M unit :=
  fun w =>
    (Ok tt,
     record_call Putconn true
       (mkWorld (table w) (next_id w) None (Nat.pred (in_use w)) (conn w)
          (calls w) (logged w))).

(** [cursor.execute(q)]. *)
Definition execute (q : sql) : M cursor :=
  fun w =>
    match faults Execute with
    | Some text => (Raise (StoreError text), record_call Execute false w)
    | None =>
        match run_sql q (visible w) (next_id w) with
        | Some (rows, next, cur) =>
            (Ok cur,
             record_call Execute true
               (mkWorld (table w) next (Some rows) (in_use w) (conn w)
                  (calls w) (logged w)))
        | None =>
            (Raise (StoreError "invalid input value for column"),
             record_call Execute false w)
        end
    end.

(** [cursor.fetchall()]. *)
Definition fetchall (cur : cursor) : M (list task) :=
  store_call Fetch (mret (fetched cur)).

(** [cursor.fetchone()[0]]. *)
Definition fetchone_0 (cur : cursor) : M Z :=
  store_call Fetch
    (match returned cur with
     | i :: _ => mret i
     | [] => raise TypeError
     end).

(** [conn.commit()]. *)
Definition commit : M unit :=
  store_call Commit (fun w =>
    (Ok tt,
     mkWorld (visible w) (next_id w) None (in_use w) (conn w) (calls w)
       (logged w))).

(** [conn.rollback()], on the value of the variable [conn]. *)
Definition rollback (c : option connection) : M unit :=
  match c with
  | None => raise AttributeError
  | Some _ => store_call Rollback (fun w => (Ok tt, set_work None w))
  end.

(** [with conn.cursor(...) as cursor: body]. *)
Definition with_cursor {A : Type} (body : M A) : M A :=
  store_call Cursor
    (try_finally body (fun w => (Ok tt, record_call CursorClose true w))).

End Calls.

(** ** The service with a pool ([src/app/main.py]) *)

Module Main.

Definition name_rejection : response :=
  (error_body "Invalid task name (3-100 alphanumeric characters)", 400).
Definition priority_rejection : response :=
  (error_body "Invalid priority value", 400).
Definition past_rejection : response :=
  (error_body "Deadline cannot be in the past", 400).
Definition format_rejection : response :=
  (error_body "Invalid deadline format. Use YYYY-MM-DD.", 400).
Definition injection_rejection : response :=
  (error_body "Invalid input detected", 400).

(** [isinstance(value, str) and sql_injection_pattern.search(value)]. *)
Definition suspicious (value : json) : bool :=
  match value with
  | JStr s => sql_injection_search s
  | _ => false
  end.

(** [now] is [datetime.now(timezone.utc)].  [scan] is the loop over
    [data.values()], reached when the blocks before it return nothing.  A
    name or a truthy deadline that is not a [str] makes [re.match] or
    [strptime] raise [TypeError], which [except ValueError] lets through. *)
Definition validate_task_data (now : datetime) (data : payload)
  : result (option response) :=
  match get data "name" (JStr "") with
  | JStr name =>
      if negb (name_re_match name) then Ok (Some name_rejection)
      else if negb (match get data "priority" JNull with
                    | JStr p => String.eqb p "Low" || String.eqb p "Medium"
                                || String.eqb p "High"
                    | _ => false
                    end)
      then Ok (Some priority_rejection)
      else
        let scan :=
          if existsb suspicious (values data)
          then Ok (Some injection_rejection)
          else Ok None in
        match data !! "deadline" with
        | Some v =>
            if truthy v then
              match v with
              | JStr s =>
                  match strptime s with
                  | Some d =>
                      if datetime_lt (midnight d) now
                      then Ok (Some past_rejection)
                      else scan
                  | None => Ok (Some format_rejection)
                  end
              | _ => Raise TypeError
              end
            else scan
        | None => scan
        end
  | _ => Raise TypeError
  end.

(** [jsonify] of a fetched row, after the loop of [get_tasks] has replaced
    a deadline that is not [None] by its [strftime('%Y-%m-%d')]. *)
Definition task_json (t : task) : json :=
  JObj [("id", JInt (row_id t));
        ("name", JStr (row_name t));
        ("progress", JInt (row_progress t));
        ("assigned_to",
          match row_assigned_to t with Some a => JStr a | None => JNull end);
        ("deadline",
          match row_deadline t with
          | Some d => JStr (strftime d)
          | None => JNull
          end);
        ("priority", JStr (row_priority t))].

(** [0 <= v <= 100] on a decoded JSON value; a [bool] is 0 or 1, and any
    other value that is not a number cannot be compared with 0. *)
Definition in_0_100 (v : json) : result bool :=
  match v with
  | JInt n => Ok ((0 <=? n) && (n <=? 100))
  | JBool _ => Ok true
  | _ => Raise TypeError
  end.

(** [@app.errorhandler(404)]. *)
Definition not_found : response := (error_body "Resource not found", 404).

(** [@app.errorhandler(500)]. *)
Definition internal_error : response :=
  (error_body "Internal server error", 500).

Section Routes.

Variable now : datetime.
Variable faults : op -> option string.

Definition get_db_connection : M connection := getconn faults.
Definition release_db_connection (c : connection) : M unit := putconn c.

(** [finally: if conn: release_db_connection(conn)]. *)
Definition release_if_conn : M unit :=
  c ← read_conn;
  match c with
  | Some c => release_db_connection c
  | None => mret tt
  end.

(** [GET /tasks]. *)
Definition get_tasks : M response :=
  assign_conn None;;
  try_finally
    (try_except
       (c ← get_db_connection;
        assign_conn (Some c);;
        with_cursor faults
          (cur ← execute faults SelectTasks;
           tasks ← fetchall faults cur;
           mret (JArr (task_json <$> tasks), 200)))
       (fun e =>
          logger_error ("Database error: " +:+ exn_text e);;
          mret (error_body "Failed to retrieve tasks", 500)))
    release_if_conn.

(** [POST /tasks]. *)
Definition add_task (data : payload) : M response :=
  validation ← lift (validate_task_data now data);
  match validation with
  | Some rejection => mret rejection
  | None =>
      assign_conn None;;
      try_finally
        (try_except
           (c ← get_db_connection;
            assign_conn (Some c);;
            with_cursor faults
              (name ← lift (getitem data "name");
               priority ← lift (getitem data "priority");
               cur ← execute faults
                       (InsertTask name
                          (get data "progress" (JInt 0))
                          (get data "assigned_to" JNull)
                          (get data "deadline" JNull)
                          priority);
               new_id ← fetchone_0 faults cur;
               commit faults;;
               mret (JObj [("message", JStr "Task added successfully");
                           ("id", JInt new_id)], 201)))
           (fun e =>
              logger_error ("Database error: " +:+ exn_text e);;
              c ← read_conn;
              rollback faults c;;
              mret (error_body "Failed to create task", 500)))
        release_if_conn
  end.

(** [PUT /tasks/<int:task_id>]. *)
Definition update_task (task_id : Z) (data : payload) : M response :=
  in_range ←
    lift (match data !! "progress" with
          | Some v => in_0_100 v
          | None => Ok true
          end);
  if negb in_range
  then mret (error_body "Progress must be between 0-100", 400)
  else
    assign_conn None;;
    try_finally
      (try_except
         (c ← get_db_connection;
          assign_conn (Some c);;
          with_cursor faults
            (progress ← lift (getitem data "progress");
             cur ← execute faults (UpdateProgress progress task_id);
             if rowcount cur =? 0
             then mret (error_body "Task not found", 404)
             else
               commit faults;;
               mret (message_body "Task updated successfully", 200)))
         (fun e =>
            logger_error ("Database error: " +:+ exn_text e);;
            c ← read_conn;
            rollback faults c;;
            mret (error_body "Failed to update task", 500)))
      release_if_conn.

(** [DELETE /tasks/<int:task_id>]. *)
Definition delete_task (task_id : Z) : M response :=
  assign_conn None;;
  try_finally
    (try_except
       (c ← get_db_connection;
        assign_conn (Some c);;
        with_cursor faults
          (cur ← execute faults (DeleteTask task_id);
           if rowcount cur =? 0
           then mret (error_body "Task not found", 404)
           else
             commit faults;;
             mret (message_body "Task deleted successfully", 200)))
       (fun e =>
          logger_error ("Database error: " +:+ exn_text e);;
          c ← read_conn;
          rollback faults c;;
          mret (error_body "Failed to delete task", 500)))
    release_if_conn.

(** The line [Flask.log_exception] writes with [app.logger.error] for an
    exception that leaves a route: [request.path] and [request.method]. *)
Definition exception_line (method path : string) : string :=
  "Exception on " +:+ path +:+ " [" +:+ method +:+ "]".

(** What the client receives for a request of the given method and path.
    An exception that leaves the route goes to [Flask.handle_exception]
    (the application runs with neither [debug] nor [testing]): it is
    logged, and answered by the handler registered for 500. *)
Definition serve (method path : string) (route : M response) (w : world)
  : response * world :=
  match route w with
  | (Ok r, w') => (r, w')
  | (Raise _, w') =>
      (internal_error, record_log (exception_line method path) w')
  end.

(** The requests the service routes, and the [@app.route] table. *)
Inductive request : Type :=
  | GetTasks
  | PostTask (data : payload)
  | PutTask (task_id : Z) (data : payload)
  | DeleteTaskById (task_id : Z).

Definition route (r : request) : M response :=
  match r with
  | GetTasks => get_tasks
  | PostTask data => add_task data
  | PutTask task_id data => update_task task_id data
  | DeleteTaskById task_id => delete_task task_id
  end.

End Routes.

End Main.

(** ** The service without a pool ([src/backend/app.py]) *)

Module Backend.

(** [now] is [datetime.now()], the local time. *)
Definition validate_task_data (now : datetime) (data : payload)
  : result (option response) :=
  match get data "name" (JStr "") with
  | JStr name =>
      if negb (name_re_match name) then Ok (Some Main.name_rejection)
      else if negb (match get data "priority" JNull with
                    | JStr p => String.eqb p "Low" || String.eqb p "Medium"
                                || String.eqb p "High"
                    | _ => false
                    end)
      then Ok (Some Main.priority_rejection)
      else
        match data !! "deadline" with
        | Some v =>
            if truthy v then
              match v with
              | JStr s =>
                  match strptime s with
                  | Some d =>
                      if datetime_lt (midnight d) now
                      then Ok (Some Main.past_rejection)
                      else Ok None
                  | None => Ok (Some Main.format_rejection)
                  end
              | _ => Raise TypeError
              end
            else Ok None
        | None => Ok None
        end
  | _ => Raise TypeError
  end.

Section Routes.

Variable now : datetime.
Variable faults : op -> option string.

(** [psycopg2.connect(...)]. *)
Definition get_db_connection : M connection :=
  store_call faults Connect (mret Connection).

(** [conn.cursor()]. *)
Definition open_cursor : M unit := store_call faults Cursor (mret tt).

(** [cursor.close()]. *)
Definition cursor_close : M unit :=
  fun w => (Ok tt, record_call CursorClose true w).

(** [conn.close()]: work that was not committed is gone. *)
Definition conn_close : M unit :=
  fun w => (Ok tt, record_call ConnClose true (set_work None w)).

(** The body of every [except Exception as e] of this file. *)
Definition database_error (e : exn) : M response :=
  mret (error_body ("Database error: " +:+ exn_text e), 500).

(** [GET /tasks]. *)
Definition get_tasks : M response :=
  try_except
    (get_db_connection;;
     open_cursor;;
     cur ← execute faults SelectTasks;
     tasks ← fetchall faults cur;
     cursor_close;;
     conn_close;;
     mret (JArr (Main.task_json <$> tasks), 200))
    database_error.

(** [POST /tasks]. *)
Definition add_task (data : payload) : M response :=
  validation ← lift (validate_task_data now data);
  match validation with
  | Some rejection => mret rejection
  | None =>
      try_except
        (get_db_connection;;
         open_cursor;;
         name ← lift (getitem data "name");
         assigned_to ← lift (getitem data "assigned_to");
         deadline ← (if truthy (get data "deadline" JNull)
                     then lift (getitem data "deadline")
                     else mret JNull);
         priority ← lift (getitem data "priority");
         cur ← execute faults
                 (InsertTask name (get data "progress" (JInt 0)) assigned_to
                    deadline priority);
         new_id ← fetchone_0 faults cur;
         commit faults;;
         cursor_close;;
         conn_close;;
         mret (JObj [("message", JStr "Task added successfully");
                     ("id", JInt new_id)], 201))
        database_error
  end.

(** [PUT /tasks/<int:task_id>]. *)
Definition update_task (task_id : Z) (data : payload) : M response :=
  in_range ←
    lift (match data !! "progress" with
          | Some v => Main.in_0_100 v
          | None => Ok true
          end);
  if negb in_range
  then mret (error_body "Progress must be between 0-100", 400)
  else
    try_except
      (get_db_connection;;
       open_cursor;;
       progress ← lift (getitem data "progress");
       cur ← execute faults (UpdateProgress progress task_id);
       if rowcount cur =? 0
       then
         cursor_close;;
         conn_close;;
         mret (error_body "Task not found", 404)
       else
         commit faults;;
         cursor_close;;
         conn_close;;
         mret (message_body "Task updated successfully", 200))
      database_error.

(** [DELETE /tasks/<int:task_id>]. *)
Definition delete_task (task_id : Z) : M response :=
  try_except
    (get_db_connection;;
     open_cursor;;
     cur ← execute faults (DeleteTask task_id);
     if rowcount cur =? 0
     then
       cursor_close;;
       conn_close;;
       mret (error_body "Task not found", 404)
     else
       commit faults;;
       cursor_close;;
       conn_close;;
       mret (message_body "Task deleted successfully", 200))
    database_error.

(** [GET /]: connects and answers with a fixed text; the connection is
    neither used nor closed, and nothing catches what [connect] raises. *)
Definition home : M response :=
  get_db_connection;;
  mret (JStr "PostgreSQL connection successful!", 200).

(** The requests this service routes, and its [@app.route] table. *)
Inductive request : Type :=
  | Home
  | GetTasks
  | PostTask (data : payload)
  | PutTask (task_id : Z) (data : payload)
  | DeleteTaskById (task_id : Z).

Definition route (r : request) : M response :=
  match r with
  | Home => home
  | GetTasks => get_tasks
  | PostTask data => add_task data
  | PutTask task_id data => update_task task_id data
  | DeleteTaskById task_id => delete_task task_id
  end.

End Routes.

End Backend.

(** ** The contract of the validation engine, as the specification words it

    Four checks, each of which passes ([Ok None]), rejects or raises; they
    are applied in order and the first one that does not pass decides. *)

Module Contract.

Definition check_name (data : payload) : result (option response) :=
  match get data "name" (JStr "") with
  | JStr name =>
      if name_re_match name then Ok None else Ok (Some Main.name_rejection)
  | _ => Raise TypeError
  end.

Definition check_priority (data : payload) : result (option response) :=
  match data !! "priority" with
  | Some (JStr p) =>
      if bool_decide (p ∈ ["Low"; "Medium"; "High"]) then Ok None
      else Ok (Some Main.priority_rejection)
  | _ => Ok (Some Main.priority_rejection)
  end.

Definition check_deadline (now : datetime) (data : payload)
  : result (option response) :=
  match data !! "deadline" with
  | None => Ok None
  | Some v =>
      if truthy v then
        match v with
        | JStr s =>
            match strptime s with
            | None => Ok (Some Main.format_rejection)
            | Some d =>
                if datetime_lt (midnight d) now
                then Ok (Some Main.past_rejection)
                else Ok None
            end
        | _ => Raise TypeError
        end
      else Ok None
  end.

Definition check_injection (data : payload) : result (option response) :=
  if existsb Main.suspicious (values data)
  then Ok (Some Main.injection_rejection)
  else Ok None.

Fixpoint first_failure (checks : list (result (option response)))
  : result (option response) :=
  match checks with
  | [] => Ok None
  | Ok None :: rest => first_failure rest
  | decided :: _ => decided
  end.

(** [lit] occurs in [s] at some position, compared after lowering the
    letters of [s]: no boundary is required around the occurrence. *)
Fixpoint lower_string (s : string) : string :=
  match s with
  | "" => ""
  | String c s' => String (lower c) (lower_string s')
  end.

Definition occurs_ci (lit s : string) : Prop :=
  exists pre mid post, s = pre +:+ mid +:+ post /\ lower_string mid = lit.

(** Some string value of the payload holds an entry of the denylist. *)
Definition denied (data : payload) : Prop :=
  exists field s lit,
    data !! field = Some (JStr s) /\ lit ∈ denylist /\ occurs_ci lit s.

End Contract.

(** ** Vocabulary of the statements *)

(** Connections acquired and released in a list of calls. *)
Definition acquired (tr : list (op * bool)) : nat :=
  length (List.filter (fun c => bool_decide (c = (Getconn, true))) tr).
Definition released (tr : list (op * bool)) : nat :=
  length (List.filter (fun c => bool_decide (c = (Putconn, true))) tr).

(** Some call of the list raised. *)
Definition failed (tr : list (op * bool)) : bool :=
  existsb (fun c => negb c.2) tr.

(** The bodies of the 500 answers of [src/app/main.py]. *)
Definition generic_bodies : list json :=
  [error_body "Failed to create task"; error_body "Failed to update task";
   error_body "Failed to delete task"; error_body "Internal server error"].

Definition progress_bounded (rows : list task) : Prop :=
  Forall (fun t => 0 <= row_progress t <= 100) rows.

(** The 404 answer of the update and delete routes. *)
Definition task_not_found : response := (error_body "Task not found", 404).

(** The calls of a run that finds no row. *)
Definition not_found_calls : list (op * bool) :=
  [(Getconn, true); (Cursor, true); (Execute, true); (CursorClose, true);
   (Putconn, true)].

(** The world a route leaves when it found no row. *)
Definition after_not_found (w : world) : world :=
  mkWorld (table w) (next_id w) None (in_use w) (Some Connection)
    (calls w ++ not_found_calls) (logged w).

(** Every character of [s] is in the class of the name pattern. *)
Fixpoint all_name_char (s : string) : bool :=
  match s with
  | "" => true
  | String c s' => name_char c && all_name_char s'
  end.

(** The last character of [s] is a newline. *)
Fixpoint ends_newline (s : string) : bool :=
  match s with
  | "" => false
  | String c s' =>
      match s' with
      | "" => (code c =? 10)%N
      | String _ _ => ends_newline s'
      end
  end.

(** Connections opened and closed by [src/backend/app.py] in a list of
    calls. *)
Definition opened (tr : list (op * bool)) : nat :=
  length (List.filter (fun c => bool_decide (c = (Connect, true))) tr).
Definition closed (tr : list (op * bool)) : nat :=
  length (List.filter (fun c => bool_decide (c = (ConnClose, true))) tr).

(** The status of what a route returned, when it returned. *)
Definition status_of (r : result response) : option Z :=
  match r with
  | Ok resp => Some resp.2
  | Raise _ => None
  end.

(** The value of a key of a JSON object. *)
Definition field (key : string) (v : json) : option json :=
  match v with
  | JObj l => snd <$> List.find (fun kv => String.eqb kv.1 key) l
  | _ => None
  end.

(** The text YYYY-MM-DD of a date: four digits, two and two. *)
Definition iso_text (d : date) : string :=
  pad4 (year d) ++ "-" ++ pad2 (month d) ++ "-" ++ pad2 (day d).

(** The JSON object [o] shows the row [t]: each of the six columns under
    its name, the deadline as the text of [strftime] or null. *)
Definition shows (t : task) (o : json) : Prop :=
  field "id" o = Some (JInt (row_id t))
  /\ field "name" o = Some (JStr (row_name t))
  /\ field "progress" o = Some (JInt (row_progress t))
  /\ field "assigned_to" o
     = Some match row_assigned_to t with Some a => JStr a | None => JNull end
  /\ field "deadline" o
     = Some match row_deadline t with
            | Some d => JStr (strftime d)
            | None => JNull
            end
  /\ field "priority" o = Some (JStr (row_priority t)).

(** The character of a decimal digit. *)
Definition digit_char (q : Z) : ascii := ascii_of_N (Z.to_N (48 + q)).

(** A digit or a space. *)
Definition date_char (c : ascii) : bool := is_digit c || (code c =? 32)%N.

(** Digits and spaces, with hyphens that are each followed by a digit or a
    space, or end the text. *)
Fixpoint date_text (s : string) : bool :=
  match s with
  | "" => true
  | String c s' =>
      (date_char c
       || ((code c =? 45)%N
           && match s' with "" => true | String c' _ => date_char c' end))
      && date_text s'
  end.

(** The first call of the list that raised. *)
Fixpoint first_failed (tr : list (op * bool)) : option op :=
  match tr with
  | [] => None
  | (o, ok) :: tr' => if ok then first_failed tr' else Some o
  end.

(** ** Sample inputs *)

Definition no_faults : op -> option string := fun _ => None.

Definition fault_at (o : op) (text : string) : op -> option string :=
  fun o' => if decide (o' = o) then Some text else None.

(** 2026-11-03 09:30:00 UTC. *)
Definition sample_now : datetime := mkDatetime (mkDate 2026 11 3) 9 30 0 0.

(** The same instant on a server two hours ahead of UTC: 11:30:00. *)
Definition sample_local : datetime := mkDatetime (mkDate 2026 11 3) 11 30 0 0.

(** An empty table, an idle pool, nothing logged. *)
Definition empty_world : world := mkWorld [] 1 None 0 None [] [].

Definition scenario_A : payload :=
  list_to_map [("name", JStr "Write spec"); ("priority", JStr "High");
               ("deadline", JStr "2099-01-01")].

(** [{"name": "x", "priority": "Low"}]: the name is too short. *)
Definition scenario_D : payload :=
  list_to_map [("name", JStr "x"); ("priority", JStr "Low")].

Definition selection_payload : payload :=
  list_to_map [("name", JStr "Selection"); ("priority", JStr "Low")].

(** A deadline on the day of [sample_now]. *)
Definition due_today : payload :=
  list_to_map [("name", JStr "Write spec"); ("priority", JStr "High");
               ("deadline", JStr "2026-11-03")].

(** [{"name": "Pour slab", "priority": "Low", "progress": 150}]. *)
Definition progress_150 : payload :=
  list_to_map [("name", JStr "Pour slab"); ("priority", JStr "Low");
               ("progress", JInt 150)].

(** [scenario_A] with the assignee the service without a pool requires. *)
Definition scenario_A_assigned : payload :=
  <["assigned_to" := JStr "Ada"]> scenario_A.

(** The table after [scenario_A] was created. *)
Definition one_task_world : world :=
  mkWorld [mkTask 1 "Write spec" 0 None (Some (mkDate 2099 1 1)) "High"] 2
    None 0 None [] [].

(** A world whose rows are stored out of id order. *)
Definition three_task_world : world :=
  mkWorld [mkTask 3 "Roof" 10 (Some "Ada") None "Low";
           mkTask 1 "Write spec" 0 None (Some (mkDate 2099 1 1)) "High";
           mkTask 2 "Walls" 55 None (Some (mkDate 2027 3 9)) "Medium"]
    4 None 0 None [] [].

(** A row whose deadline is of the year 999. *)
Definition old_deadline_world : world :=
  mkWorld [mkTask 1 "Cornerstone" 100 None (Some (mkDate 999 12 31)) "Low"] 2
    None 0 None [] [].

(** * Properties *)

(** ** Running a route

    The routes are run symbolically: the definitions are unfolded and the
    run is split on each decision of the store ([faults]), of the pool
    and of the data. *)

#[local] Arguments run_sql : simpl never.
#[local] Opaque maxconn.
#[local] Arguments String.append : simpl never.
#[local] Arguments Main.validate_task_data : simpl never.
#[local] Arguments Backend.validate_task_data : simpl never.
#[local] Arguments getitem : simpl never.
#[local] Arguments get : simpl never.

Ltac run_step :=
  match goal with
  | |- context [Main.validate_task_data ?n ?d] =>
      destruct (Main.validate_task_data n d) as [[?|]|?] eqn:?
  | |- context [Backend.validate_task_data ?n ?d] =>
      destruct (Backend.validate_task_data n d) as [[?|]|?] eqn:?
  | |- context [match ?d !! ?k with Some _ => _ | None => _ end] =>
      destruct (d !! k) eqn:?
  | |- context [Main.in_0_100 ?v] =>
      destruct (Main.in_0_100 v) as [[|]|?] eqn:?
  | |- context [match ?f Getconn with Some _ => _ | None => _ end] =>
      destruct (f Getconn) eqn:?
  | |- context [if (maxconn <=? ?n)%nat then _ else _] =>
      destruct (maxconn <=? n)%nat eqn:?
  | |- context [match ?f ?o with Some _ => _ | None => _ end] =>
      match type of o with op => destruct (f o) eqn:? end
  | |- context [getitem ?d ?k] => destruct (getitem d k) eqn:?
  | |- context [run_sql ?q ?r ?n] =>
      destruct (run_sql q r n) as [[[? ?] ?]|] eqn:?
  | |- context [if ?x =? 0 then _ else _] => destruct (x =? 0) eqn:?
  | |- context [match returned ?c with _ => _ end] =>
      destruct (returned c) eqn:?
  end.

Ltac unfold_route :=
  cbv [Main.route Main.serve
       Main.get_tasks Main.add_task Main.update_task Main.delete_task
       Main.release_if_conn Main.get_db_connection
       Main.release_db_connection getconn
       putconn execute fetchall fetchone_0 commit rollback with_cursor
       store_call try_except try_finally read_conn assign_conn logger_error
       lift raise mbind mret M_bind M_ret set_conn_var set_work record_call
       record_log visible];
  simpl.

Ltac run_route := unfold_route; repeat (run_step; simpl).

(** The calls of a run, as a suffix of the log. *)
Ltac trace_suffix :=
  rewrite <- ?app_assoc; simpl;
  match goal with
  | |- exists tr, ?cl = (?cl ++ tr)%list /\ _ =>
      exists []; split; [symmetry; apply app_nil_r|]
  | |- exists tr, (?cl ++ ?t)%list = (?cl ++ tr)%list /\ _ =>
      exists t; split; [reflexivity|]
  end.

(** *** The store *)

Lemma count_id_absent task_id rows :
  (forall t, t ∈ rows -> row_id t <> task_id) -> count_id task_id rows = 0.
Proof.
  intros H. unfold count_id.
  replace (List.filter (has_id task_id) rows) with (@nil task); [done|].
  induction rows as [|t rows IH]; [done|]. simpl.
  assert (has_id task_id t = false) as ->.
  { unfold has_id. apply Z.eqb_neq, H. left. }
  apply IH. intros t' Ht'. apply H. by right.
Qed.

Lemma as_integer_bounded p : 0 <= p <= 100 -> as_integer (JInt p) = Some p.
Proof.
  intros Hp. unfold as_integer, int4.
  destruct (Z.leb_spec (-2147483648) p), (Z.leb_spec p 2147483647);
    simpl; try done; lia.
Qed.

Lemma pool_available (n : nat) :
  (n < maxconn)%nat -> (maxconn <=? n)%nat = false.
Proof. intros H. apply Nat.leb_gt, H. Qed.

(** ** Validation *)

Lemma priority_eqb_elem p :
  String.eqb p "Low" || String.eqb p "Medium" || String.eqb p "High"
  = bool_decide (p ∈ ["Low"; "Medium"; "High"]).
Proof.
  apply eq_true_iff_eq. rewrite !orb_true_iff, !String.eqb_eq.
  rewrite bool_decide_eq_true, !elem_of_cons, elem_of_nil. tauto.
Qed.

Lemma first_failure_validate now data :
  Main.validate_task_data now data
  = Contract.first_failure
      [Contract.check_name data; Contract.check_priority data;
       Contract.check_deadline now data; Contract.check_injection data].
Proof.
  unfold Main.validate_task_data, Contract.check_name, Contract.check_priority,
    Contract.check_deadline, Contract.check_injection, get.
  destruct (data !! "name") as [[| | |name| |]|]; simpl; try reflexivity.
  all: destruct (name_re_match _); simpl; try reflexivity.
  all: destruct (data !! "priority") as [[| | |p| |]|]; simpl; try reflexivity.
  all: rewrite priority_eqb_elem; destruct (bool_decide _); simpl;
    try reflexivity.
  all: destruct (data !! "deadline") as [v|]; simpl;
    [destruct (truthy v); [destruct v as [| | |s| |]; simpl; try reflexivity;
       destruct (strptime s); simpl; try reflexivity;
       destruct (datetime_lt _ _); simpl; try reflexivity|] |];
    destruct (existsb _ _); reflexivity.
Qed.

(** The validation of [src/backend/app.py] is the first three checks. *)
Lemma backend_first_failure_validate now data :
  Backend.validate_task_data now data
  = Contract.first_failure
      [Contract.check_name data; Contract.check_priority data;
       Contract.check_deadline now data].
Proof.
  unfold Backend.validate_task_data, Contract.check_name,
    Contract.check_priority, Contract.check_deadline, get.
  destruct (data !! "name") as [[| | |name| |]|]; simpl; try reflexivity.
  all: destruct (name_re_match _); simpl; try reflexivity.
  all: destruct (data !! "priority") as [[| | |p| |]|]; simpl; try reflexivity.
  all: rewrite priority_eqb_elem; destruct (bool_decide _); simpl;
    try reflexivity.
  all: destruct (data !! "deadline") as [v|]; simpl; [|reflexivity];
    destruct (truthy v); [|reflexivity];
    destruct v as [| | |s| |]; simpl; try reflexivity;
    destruct (strptime s); simpl; try reflexivity;
    by destruct (datetime_lt _ _).
Qed.

Lemma rejection_status now data r :
  Main.validate_task_data now data = Ok (Some r) -> r.2 = 400.
Proof.
  unfold Main.validate_task_data.
  repeat match goal with
         | |- context [match ?x with _ => _ end] => destruct x
         end;
    intros [= <-]; reflexivity.
Qed.

(** *** The name pattern *)

Lemma at_dollar_short s :
  at_dollar s = true -> (String.length s <= 1)%nat /\ all_name_char s = true.
Proof.
  destruct s as [|c [|c' s]]; simpl; [intros _; split; [lia|done] | | done].
  intros Hc. apply N.eqb_eq in Hc. split; [lia|].
  assert (is_space c = true) as Hs.
  { unfold is_space, between. by rewrite Hc. }
  unfold name_char. by rewrite Hs, orb_true_r.
Qed.

Lemma rep_name_char_sound lo hi s :
  rep_name_char lo hi s = true ->
  (lo <= String.length s <= S hi)%nat /\ all_name_char s = true.
Proof.
  revert lo s. induction hi as [|hi IH]; intros lo s; simpl.
  - rewrite andb_true_iff, Nat.eqb_eq. intros [-> Hd].
    apply at_dollar_short in Hd. split; [lia|tauto].
  - destruct s as [|c s].
    + rewrite andb_true_iff, Nat.eqb_eq. intros [-> _]. simpl. split; [lia|done].
    + rewrite orb_true_iff, !andb_true_iff, Nat.eqb_eq.
      intros [[Hc Hr] | [-> Hd]].
      * apply IH in Hr as [Hl Ha]. simpl. rewrite Hc, Ha. split; [lia|done].
      * apply at_dollar_short in Hd. split; [lia|tauto].
Qed.

Lemma rep_name_char_complete lo hi s :
  all_name_char s = true -> (lo <= String.length s <= hi)%nat ->
  rep_name_char lo hi s = true.
Proof.
  revert lo s. induction hi as [|hi IH]; intros lo s Ha Hl.
  - destruct s; simpl in *; [|lia]. by replace lo with 0%nat by lia.
  - destruct s as [|c s]; simpl in *.
    + by replace lo with 0%nat by lia.
    + apply andb_true_iff in Ha as [-> Ha]. simpl.
      rewrite IH; [done | done | lia].
Qed.

(** A name is accepted when it has 3 to 100 characters, all of the class;
    an accepted name has characters of the class only, at least 3 and at
    most 101 of them (the pattern ends with [$], which also matches before
    a final newline). *)
Lemma name_re_match_bounds s :
  (all_name_char s = true /\ (3 <= String.length s <= 100)%nat ->
   name_re_match s = true)
  /\ (name_re_match s = true ->
      all_name_char s = true /\ (3 <= String.length s <= 101)%nat).
Proof.
  split.
  - intros [Ha Hl]. by apply rep_name_char_complete.
  - intros H. apply rep_name_char_sound in H. tauto.
Qed.

(** *** The denylist scan *)

Lemma prefix_ci_occurs lit s :
  prefix_ci lit s = true
  <-> exists mid post, s = mid +:+ post /\ Contract.lower_string mid = lit.
Proof.
  revert s. induction lit as [|a lit IH]; intros s; simpl.
  - split; [intros _; exists "", s; done|]. by destruct s.
  - destruct s as [|b s].
    + split; [done|]. intros (mid & post & Hs & Hm).
      destruct mid; simpl in *; [congruence | done].
    + rewrite andb_true_iff, Ascii.eqb_eq, IH. split.
      * intros (-> & mid & post & -> & <-). by exists (String b mid), post.
      * intros (mid & post & Hs & Hm).
        destruct mid as [|c mid]; simpl in *; [congruence|].
        injection Hs as -> ->. injection Hm as -> <-.
        split; [done|]. by exists mid, post.
Qed.

Lemma denylist_nonempty lit : lit ∈ denylist -> lit <> "".
Proof.
  unfold denylist. rewrite !elem_of_cons, elem_of_nil.
  intros H; repeat destruct H as [->|H]; done.
Qed.

Lemma sql_injection_search_occurs s :
  sql_injection_search s = true
  <-> exists lit, lit ∈ denylist /\ Contract.occurs_ci lit s.
Proof.
  induction s as [|c s IH].
  - split; [intros H; vm_compute in H; done|].
    intros (lit & Hin & pre & mid & post & Hs & Hm).
    apply denylist_nonempty in Hin.
    destruct pre; [|done]. destruct mid; [|done]. simpl in Hm. congruence.
  - change (sql_injection_search (String c s))
      with (existsb (fun lit => prefix_ci lit (String c s)) denylist
            || sql_injection_search s).
    rewrite orb_true_iff, IH, existsb_exists. split.
    + intros [(lit & Hin & Hp) | (lit & Hin & pre & mid & post & -> & Hm)].
      * apply prefix_ci_occurs in Hp as (mid & post & Hs & Hm).
        exists lit. split; [by apply list_elem_of_In|].
        by exists "", mid, post.
      * exists lit. split; [done|]. by exists (String c pre), mid, post.
    + intros (lit & Hin & pre & mid & post & Hs & Hm).
      destruct pre as [|c' pre].
      * left. exists lit. split; [by apply list_elem_of_In|].
        apply prefix_ci_occurs. by exists mid, post.
      * right. injection Hs as -> ->. exists lit. split; [done|].
        by exists pre, mid, post.
Qed.

Lemma suspicious_value data :
  existsb Main.suspicious (values data) = true
  <-> exists field s, data !! field = Some (JStr s)
        /\ sql_injection_search s = true.
Proof.
  rewrite existsb_exists. unfold values. split.
  - intros (v & Hin & Hv). apply list_elem_of_In, list_elem_of_fmap in Hin.
    destruct Hin as ([k v'] & -> & Hin). apply elem_of_map_to_list in Hin.
    destruct v' as [| | |s| |]; try done. by exists k, s.
  - intros (k & s & Hk & Hs). exists (JStr s). split; [|done].
    apply list_elem_of_In, list_elem_of_fmap. exists (k, JStr s).
    split; [done|]. by apply elem_of_map_to_list.
Qed.

Lemma selection_occurs pre post :
  Contract.occurs_ci "select" (pre +:+ "Selection" +:+ post).
Proof.
  exists pre, "Select", ("ion" +:+ post). split; [|done].
  f_equal.
Qed.

(** *** The claims on [validate_task_data] *)

(** C9: [validate_task_data] is the four checks name, priority, deadline,
    denylist applied in this order, the first one that does not pass deciding
    the result (so a payload that passes all four is accepted); every
    rejection it returns carries status 400; and whether the create route
    answers a given 400 is decided by [validate_task_data] on the payload and
    the current date alone, whatever the state of the store and whatever the
    store does. *)
Theorem validation_first_failure_wins (now : datetime) (data : payload) :
  Main.validate_task_data now data
  = Contract.first_failure
      [Contract.check_name data; Contract.check_priority data;
       Contract.check_deadline now data; Contract.check_injection data]
  /\ (forall r, Main.validate_task_data now data = Ok (Some r) -> r.2 = 400)
  /\ (forall faults w r, r.2 = 400 ->
        ((Main.add_task now faults data w).1 = Ok r
         <-> Main.validate_task_data now data = Ok (Some r))).
Proof.
  split; [apply first_failure_validate|].
  split; [intros r; apply rejection_status|].
  intros faults [tb nx wk iu cv cl lg] r Hr. split.
  - run_route; simpl; intros [= <-]; try done.
  - intros H. run_route; simpl; congruence.
Qed.

(** C7: when validation rejects the payload of a create request, the route
    returns that rejection, with status 400, and the world is the one it
    started from: no connection was acquired, no call reached the store, the
    table is unchanged. *)
Theorem rejected_create_never_reaches_store
  (now : datetime) (faults : op -> option string) (data : payload) (w : world)
  (rejection : response) :
  Main.validate_task_data now data = Ok (Some rejection) ->
  Main.add_task now faults data w = (Ok rejection, w) /\ rejection.2 = 400.
Proof.
  intros H. split; [|by eapply rejection_status].
  unfold Main.add_task, mbind, M_bind, lift. by rewrite H.
Qed.

Lemma rejected_create_never_reaches_store_witness :
  Main.add_task sample_now (fault_at Execute "down") scenario_D empty_world
  = (Ok Main.name_rejection, empty_world)
  /\ Main.name_rejection.2 = 400.
Proof.
  apply rejected_create_never_reaches_store. vm_compute. reflexivity.
Defined.

Lemma scan_denied data :
  existsb Main.suspicious (values data) = true <-> Contract.denied data.
Proof.
  rewrite suspicious_value. unfold Contract.denied. split.
  - intros (k & s & Hk & Hs).
    apply sql_injection_search_occurs in Hs as (lit & Hin & Ho).
    by exists k, s, lit.
  - intros (k & s & lit & Hk & Hin & Ho). exists k, s. split; [done|].
    apply sql_injection_search_occurs. by exists lit.
Qed.

(** C4, as the code has it: a payload in which some field holds a string
    where [;], [--] or one of the six keywords occurs - at any position and
    whatever surrounds it, letters compared without case - is never
    accepted; when it passes the name, priority and deadline checks,
    validation rejects it with "Invalid input detected", status 400, and a
    payload with no such occurrence is accepted.  No word boundary is
    involved: a field containing "Selection" contains "select", so the
    payload is one of those the scan rejects. *)
Theorem denylist_scan_matches_substrings (now : datetime) (data : payload) :
  (Contract.denied data -> Main.validate_task_data now data <> Ok None)
  /\ (Contract.check_name data = Ok None ->
      Contract.check_priority data = Ok None ->
      Contract.check_deadline now data = Ok None ->
      (Main.validate_task_data now data = Ok (Some Main.injection_rejection)
       <-> Contract.denied data)
      /\ (Main.validate_task_data now data = Ok None
          <-> ~ Contract.denied data))
  /\ Main.injection_rejection.2 = 400
  /\ (forall field pre post,
        data !! field = Some (JStr (pre +:+ "Selection" +:+ post)) ->
        Contract.denied data).
Proof.
  split_and!; [| |reflexivity|].
  - intros Hden Hv. apply scan_denied in Hden.
    rewrite first_failure_validate in Hv.
    unfold Contract.check_injection in Hv. rewrite Hden in Hv.
    destruct (Contract.check_name data) as [[?|]|]; try done.
    destruct (Contract.check_priority data) as [[?|]|]; try done.
    by destruct (Contract.check_deadline now data) as [[?|]|].
  - intros Hn Hp Hd.
    rewrite first_failure_validate, Hn, Hp, Hd. simpl.
    pose proof (scan_denied data) as Hscan.
    unfold Contract.check_injection.
    destruct (existsb _ _); simpl.
    + assert (Contract.denied data) by (by apply (proj1 Hscan)).
      split; split; (done || tauto).
    + assert (~ Contract.denied data).
      { intros H. apply (proj2 Hscan) in H. congruence. }
      split; split; (done || tauto).
  - intros field pre post Hf.
    exists field, (pre +:+ "Selection" +:+ post), "select".
    split; [done|]. split; [|apply selection_occurs].
    apply list_elem_of_In. simpl. auto 10.
Qed.

Lemma denylist_scan_matches_substrings_witness :
  Main.validate_task_data sample_now selection_payload
  = Ok (Some Main.injection_rejection).
Proof.
  destruct (denylist_scan_matches_substrings sample_now selection_payload)
    as (_ & Hscan & _ & Hsel).
  apply Hscan; [vm_compute; reflexivity ..|].
  apply (Hsel "name" "" ""). vm_compute. reflexivity.
Defined.

(** C4, as stated, fails: the name "Selection" passes the name check, the
    other checks pass, and the scan rejects the payload. *)
Lemma selection_name_is_rejected :
  name_re_match "Selection" = true
  /\ Contract.check_priority selection_payload = Ok None
  /\ Contract.check_deadline sample_now selection_payload = Ok None
  /\ Main.validate_task_data sample_now selection_payload
     = Ok (Some Main.injection_rejection)
  /\ Main.validate_task_data sample_now selection_payload <> Ok None.
Proof. vm_compute. repeat split; discriminate. Qed.

(** ** Deadlines *)

Lemma date_lt_irrefl d : date_lt d d = false.
Proof. unfold date_lt. destruct d as [y m dd]; simpl. lia. Qed.

Lemma date_lt_asym a b : date_lt a b = true -> date_lt b a = false.
Proof. unfold date_lt. destruct a, b; simpl. lia. Qed.

(** The deadline check on a text deadline: a text that [strptime] refuses
    is an invalid format; a date before the day of [now] is in the past; a
    date after it passes; the day of [now] itself passes only at
    00:00:00.000000. *)
Lemma check_deadline_text now data s :
  data !! "deadline" = Some (JStr s) -> s <> "" ->
  Contract.check_deadline now data
  = match strptime s with
    | None => Ok (Some Main.format_rejection)
    | Some d =>
        if date_lt d (dt_date now) then Ok (Some Main.past_rejection)
        else if date_lt (dt_date now) d then Ok None
        else if 0 <? time_of now then Ok (Some Main.past_rejection)
        else Ok None
    end.
Proof.
  intros Hd Hs. unfold Contract.check_deadline. rewrite Hd. simpl.
  destruct (String.eqb_spec s ""); [done|]. simpl.
  destruct (strptime s) as [d|]; [|done].
  unfold datetime_lt. simpl.
  destruct (date_lt d (dt_date now)) eqn:H1; [done|].
  destruct (date_lt (dt_date now) d) eqn:H2; simpl; [done|].
  change (time_of (midnight d)) with 0. by destruct (0 <? time_of now).
Qed.

(** The same on the whole validation, for a payload that is valid
    otherwise. *)
Lemma deadline_rule now data s :
  Contract.check_name data = Ok None ->
  Contract.check_priority data = Ok None ->
  Contract.check_injection data = Ok None ->
  data !! "deadline" = Some (JStr s) -> s <> "" ->
  Main.validate_task_data now data
  = match strptime s with
    | None => Ok (Some Main.format_rejection)
    | Some d =>
        if date_lt d (dt_date now) then Ok (Some Main.past_rejection)
        else if date_lt (dt_date now) d then Ok None
        else if 0 <? time_of now then Ok (Some Main.past_rejection)
        else Ok None
    end.
Proof.
  intros Hn Hp Hi Hd Hs.
  rewrite first_failure_validate, Hn, Hp, Hi. simpl.
  rewrite (check_deadline_text now data s Hd Hs).
  by repeat case_match.
Qed.

(** C3, the failing case: at 09:30 UTC on 2026-11-03, the deadline
    "2026-11-03", which parses to that very day, is rejected as being in the
    past, by the validation of both services. *)
Lemma deadline_today_is_rejected :
  valid_datetime sample_now = true
  /\ strptime "2026-11-03" = Some (dt_date sample_now)
  /\ Main.validate_task_data sample_now due_today
     = Ok (Some Main.past_rejection)
  /\ Backend.validate_task_data sample_now due_today
     = Ok (Some Main.past_rejection).
Proof. vm_compute. done. Qed.

(** ** The protocol of a route *)

(** C1: in every route of [src/app/main.py] and on every exit path (whatever
    calls the store makes raise), the calls of the run either acquire no
    connection and release none, or start with the acquisition of one
    connection and end with its release, with no other acquisition or release
    in between; the pool holds as many connections after the run as
    before. *)
Theorem connection_released_exactly_once
  (now : datetime) (faults : op -> option string) (r : Main.request)
  (w : world) :
  let '(_, w') := Main.route now faults r w in
  exists tr, calls w' = (calls w ++ tr)%list
    /\ ((acquired tr = 0%nat /\ released tr = 0%nat)
        \/ (exists mid, tr = ((Getconn, true) :: mid ++ [(Putconn, true)])%list
                /\ acquired mid = 0%nat /\ released mid = 0%nat))
    /\ in_use w' = in_use w.
Proof.
  destruct w as [tb nx wk iu cv cl lg].
  destruct r as [|data|task_id data|task_id]; run_route.
  all: trace_suffix; (split; [|reflexivity]).
  all: first
    [ left; split; reflexivity
    | right;
      match goal with
      | |- exists mid, (_ :: ?rest) = _ /\ _ => exists (removelast rest)
      end;
      split; [reflexivity | split; reflexivity] ].
Qed.

(** ** Progress *)

Lemma update_out_of_range faults task_id data n w :
  data !! "progress" = Some (JInt n) -> ~ 0 <= n <= 100 ->
  Main.update_task faults task_id data w
  = (Ok (error_body "Progress must be between 0-100", 400), w).
Proof.
  intros Hd Hn. unfold_route. rewrite Hd. simpl.
  assert ((0 <=? n) && (n <=? 100) = false) as -> by lia. done.
Qed.

Lemma update_rows_bounded a task_id rows next rows' next' cur :
  run_sql (UpdateProgress a task_id) rows next = Some (rows', next', cur) ->
  Main.in_0_100 a = Ok true ->
  progress_bounded rows -> progress_bounded rows'.
Proof.
  unfold run_sql, progress_bounded. intros Hq Hr Hb.
  destruct a as [| |n| | |]; simpl in *; try done.
  unfold int4 in Hq.
  destruct ((-2147483648 <=? n) && (n <=? 2147483647)); simpl in *; [|done].
  simplify_eq. apply andb_true_iff in Hr as [Hlo Hhi].
  apply Forall_map. eapply Forall_impl; [exact Hb|].
  intros t Ht. simpl in *. destruct (has_id task_id t); simpl; lia.
Qed.

(** An update keeps every stored progress within [0,100]. *)
Lemma update_keeps_progress_bounded faults task_id data w :
  work w = None -> progress_bounded (table w) ->
  progress_bounded (table (Main.update_task faults task_id data w).2).
Proof.
  destruct w as [tb nx wk iu cv cl lg]. simpl. intros -> Hb.
  run_route; try done.
  all: unfold getitem in *;
    match goal with
    | H : ?d !! ?k = _, H' : match ?d !! ?k with _ => _ end = _ |- _ =>
        rewrite H in H'
    end;
    simplify_eq; by eapply update_rows_bounded.
Qed.

Lemma insert_rows_bounded name p a d pr rows next rows' next' cur n :
  run_sql (InsertTask name p a d pr) rows next = Some (rows', next', cur) ->
  p = JInt n -> 0 <= n <= 100 ->
  progress_bounded rows -> progress_bounded rows'.
Proof.
  unfold run_sql, progress_bounded. intros Hq -> Hn Hb.
  rewrite (as_integer_bounded n Hn) in Hq. simplify_option_eq.
  apply Forall_app. split; [done|]. by apply Forall_singleton.
Qed.

(** A create whose payload has no progress, or one within [0,100], keeps
    every stored progress within [0,100]. *)
Lemma create_keeps_progress_bounded now faults data w :
  (data !! "progress" = None
   \/ exists n, data !! "progress" = Some (JInt n) /\ 0 <= n <= 100) ->
  work w = None -> progress_bounded (table w) ->
  progress_bounded (table (Main.add_task now faults data w).2).
Proof.
  intros Hp.
  assert (exists n, get data "progress" (JInt 0) = JInt n /\ 0 <= n <= 100)
    as (n & Hget & Hn).
  { unfold get. destruct Hp as [-> | (n & -> & Hn)]; [exists 0|exists n];
      split; (done || lia). }
  destruct w as [tb nx wk iu cv cl lg]. simpl. intros -> Hb.
  run_route; try done.
  all: by eapply insert_rows_bounded.
Qed.

(** C2, the failing case: the create route stores the progress 150 it is
    given. *)
Lemma create_stores_progress_150 :
  Main.validate_task_data sample_now progress_150 = Ok None
  /\ (Main.add_task sample_now no_faults progress_150 empty_world).1
     = Ok (JObj [("message", JStr "Task added successfully");
                 ("id", JInt 1)], 201)
  /\ table (Main.add_task sample_now no_faults progress_150 empty_world).2
     = [mkTask 1 "Pour slab" 150 None None "Low"]
  /\ ~ progress_bounded
        (table (Main.add_task sample_now no_faults progress_150 empty_world).2).
Proof.
  vm_compute. repeat split; try done.
  intros H. inversion H as [|? ? [_ Hle] _]; subst. by apply Hle.
Qed.

(** An update whose payload has no [progress] is never answered by
    anything but 500, whatever the store does. *)
Lemma update_without_progress_is_500 faults path task_id data w :
  data !! "progress" = None ->
  (Main.serve "PUT" path (Main.update_task faults task_id data) w).1.2 = 500.
Proof.
  intros Hd. destruct w as [tb nx wk iu cv cl lg].
  unfold_route. rewrite Hd. simpl. unfold getitem. rewrite Hd.
  repeat (run_step; simpl); reflexivity.
Qed.

(** C5, the failing case: an update whose payload has no [progress] passes
    the range check, acquires a connection and fails on [data['progress']];
    the client receives 500. *)
Lemma update_without_progress_answers_500 :
  Main.serve "PUT" "/tasks/1" (Main.update_task no_faults 1 ∅)
    one_task_world
  = ((error_body "Failed to update task", 500),
     mkWorld (table one_task_world) 2 None 0 (Some Connection)
       [(Getconn, true); (Cursor, true); (CursorClose, true);
        (Rollback, true); (Putconn, true)]
       ["Database error: 'progress'"]).
Proof. vm_compute. done. Qed.

(** ** Not found *)

Section NotFound.

Variable faults : op -> option string.
Variable task_id : Z.
Hypothesis getconn_ok : faults Getconn = None.
Hypothesis cursor_ok : faults Cursor = None.
Hypothesis execute_ok : faults Execute = None.

Lemma delete_missing w :
  (in_use w < maxconn)%nat -> work w = None ->
  (forall t, t ∈ table w -> row_id t <> task_id) ->
  Main.delete_task faults task_id w = (Ok task_not_found, after_not_found w).
Proof.
  destruct w as [tb nx wk iu cv cl lg]. simpl. intros Hiu -> Habs.
  apply count_id_absent in Habs. apply pool_available in Hiu.
  unfold_route. rewrite getconn_ok, Hiu. simpl.
  rewrite cursor_ok, execute_ok. unfold run_sql. simpl. rewrite Habs. simpl.
  unfold after_not_found, not_found_calls. simpl.
  by rewrite <- !app_assoc.
Qed.

Lemma update_missing data p w :
  (in_use w < maxconn)%nat -> work w = None ->
  (forall t, t ∈ table w -> row_id t <> task_id) ->
  data !! "progress" = Some (JInt p) -> 0 <= p <= 100 ->
  Main.update_task faults task_id data w
  = (Ok task_not_found, after_not_found w).
Proof.
  destruct w as [tb nx wk iu cv cl lg]. simpl. intros Hiu -> Habs Hd Hp.
  apply count_id_absent in Habs. apply pool_available in Hiu.
  unfold_route. rewrite Hd. simpl.
  assert ((0 <=? p) && (p <=? 100) = true) as -> by lia. simpl.
  rewrite getconn_ok, Hiu. simpl.
  rewrite cursor_ok. unfold getitem. rewrite Hd, execute_ok.
  unfold run_sql. rewrite (as_integer_bounded p Hp). simpl.
  rewrite Habs. simpl.
  unfold after_not_found, not_found_calls. simpl.
  by rewrite <- !app_assoc.
Qed.

End NotFound.

(** C6, as the code has it: when no row has the id, the store raises no
    error, the pool has a free connection and, for an update, the payload
    carries a progress within [0,100], the update and the delete routes each
    find an affected-row count of 0 and answer 404 "Task not found"; the
    calls of the run are: acquire, open a cursor, execute, close the cursor,
    release - neither commit nor rollback is called; the table is unchanged
    and the pool is as before; the same request on the world so obtained is
    answered by the same 404 and leaves the table unchanged again. *)
Theorem missing_id_answers_404
  (faults : op -> option string) (task_id : Z) (data : payload) (p : Z)
  (w : world) (r : M response) :
  faults Getconn = None -> faults Cursor = None -> faults Execute = None ->
  (in_use w < maxconn)%nat -> work w = None ->
  (forall t, t ∈ table w -> row_id t <> task_id) ->
  data !! "progress" = Some (JInt p) -> 0 <= p <= 100 ->
  r = Main.update_task faults task_id data
  \/ r = Main.delete_task faults task_id ->
  exists w' w'',
    r w = (Ok task_not_found, w')
    /\ task_not_found.2 = 404
    /\ table w' = table w
    /\ calls w' = (calls w ++ not_found_calls)%list
    /\ in_use w' = in_use w
    /\ r w' = (Ok task_not_found, w'')
    /\ table w'' = table w.
Proof.
  intros Hg Hc He Hiu Hwk Habs Hd Hp Hr.
  exists (after_not_found w), (after_not_found (after_not_found w)).
  destruct Hr as [-> | ->].
  - rewrite !(update_missing faults task_id Hg Hc He data p); done.
  - rewrite !(delete_missing faults task_id Hg Hc He); done.
Qed.

Lemma missing_id_answers_404_witness :
  exists w' w'',
    Main.delete_task no_faults 999999 one_task_world = (Ok task_not_found, w')
    /\ task_not_found.2 = 404
    /\ table w' = table one_task_world
    /\ calls w' = (calls one_task_world ++ not_found_calls)%list
    /\ in_use w' = in_use one_task_world
    /\ Main.delete_task no_faults 999999 w' = (Ok task_not_found, w'')
    /\ table w'' = table one_task_world.
Proof.
  apply (missing_id_answers_404 no_faults 999999 {["progress" := JInt 50]} 50
           one_task_world (Main.delete_task no_faults 999999));
    try reflexivity.
  - vm_compute. lia.
  - intros t Ht. apply list_elem_of_In in Ht. simpl in Ht.
    destruct Ht as [<- | []]. vm_compute. discriminate.
  - lia.
  - right. reflexivity.
Defined.

(** C6, as stated, fails: on a missing id, the update and the delete routes
    answer 404 and release the connection without having called
    [rollback]. *)
Lemma not_found_without_rollback :
  let run_delete := Main.delete_task no_faults 999999 one_task_world in
  let run_update :=
    Main.update_task no_faults 999999 {["progress" := JInt 50]}
      one_task_world in
  run_delete.1 = Ok task_not_found
  /\ run_update.1 = Ok task_not_found
  /\ calls run_delete.2 = not_found_calls
  /\ calls run_update.2 = not_found_calls
  /\ ~ (exists ok, (Rollback, ok) ∈ calls run_delete.2)
  /\ ~ (exists ok, (Rollback, ok) ∈ calls run_update.2).
Proof.
  vm_compute. repeat split; try done.
  all: intros [ok H]; apply list_elem_of_In in H; simpl in H;
    repeat destruct H as [H|H]; try discriminate H; done.
Qed.

(** ** Listing *)

#[local] Instance id_le_total : Total id_le.
Proof. intros a b. unfold id_le. lia. Qed.

#[local] Instance id_le_trans : Transitive id_le.
Proof. intros a b c. unfold id_le. lia. Qed.

(** *** [strftime] writes what [strptime] reads *)

Lemma digit_char_spec q :
  0 <= q <= 9 ->
  is_digit (digit_char q) = true /\ digit_val (digit_char q) = q.
Proof.
  intros H.
  assert (q = 0 \/ q = 1 \/ q = 2 \/ q = 3 \/ q = 4 \/ q = 5 \/ q = 6
          \/ q = 7 \/ q = 8 \/ q = 9) as Hq by lia.
  repeat destruct Hq as [->|Hq]; try subst q; by vm_compute.
Qed.

Lemma pad2_digits n :
  pad2 n = String (digit_char (n / 10)) (String (digit_char (n mod 10)) "").
Proof. reflexivity. Qed.

Lemma parse_Y_pad4 y r :
  0 <= y <= 9999 -> parse_Y (pad4 y +:+ r) = Some (y, r).
Proof.
  intros Hy. unfold pad4. rewrite !pad2_digits. cbv [String.append].
  unfold parse_Y.
  destruct (digit_char_spec (y / 100 / 10)) as [-> ->];
    [Z.div_mod_to_equations; lia|].
  destruct (digit_char_spec (y / 100 mod 10)) as [-> ->];
    [Z.div_mod_to_equations; lia|].
  destruct (digit_char_spec (y mod 100 / 10)) as [-> ->];
    [Z.div_mod_to_equations; lia|].
  destruct (digit_char_spec (y mod 100 mod 10)) as [-> ->];
    [Z.div_mod_to_equations; lia|].
  simpl. do 2 f_equal. Z.div_mod_to_equations. lia.
Qed.

Lemma parse_m_pad2 m r :
  1 <= m <= 12 -> parse_m (pad2 m +:+ String "-" r) = Some (m, String "-" r).
Proof.
  intros H.
  assert (m = 1 \/ m = 2 \/ m = 3 \/ m = 4 \/ m = 5 \/ m = 6 \/ m = 7
          \/ m = 8 \/ m = 9 \/ m = 10 \/ m = 11 \/ m = 12) as Hm by lia.
  repeat destruct Hm as [->|Hm]; try subst m; reflexivity.
Qed.

Lemma parse_d_pad2 d : 1 <= d <= 31 -> parse_d (pad2 d) = Some (d, "").
Proof.
  intros H.
  assert (Hd : exists k : nat, (k < 31)%nat /\ d = 1 + Z.of_nat k).
  { exists (Z.to_nat (d - 1)). lia. }
  destruct Hd as (k & Hk & ->).
  do 31 (destruct k as [|k]; [reflexivity|]). lia.
Qed.

Lemma days_in_month_le y m : days_in_month y m <= 31.
Proof. unfold days_in_month. repeat case_match; lia. Qed.

#[local] Arguments parse_m : simpl never.
#[local] Arguments parse_d : simpl never.
#[local] Arguments pad2 : simpl never.

Lemma year_text_pad4 y : 1000 <= y -> year_text y = pad4 y.
Proof.
  intros Hy. unfold year_text.
  destruct (Z.ltb_spec y 10); [lia|].
  destruct (Z.ltb_spec y 100); [lia|].
  destruct (Z.ltb_spec y 1000); [lia|]. reflexivity.
Qed.

Lemma strftime_iso d : 1000 <= year d -> strftime d = iso_text d.
Proof. intros Hy. unfold strftime, iso_text. by rewrite year_text_pad4. Qed.

Lemma strptime_iso d : valid_date d = true -> strptime (iso_text d) = Some d.
Proof.
  intros Hv. pose proof Hv as Hb. unfold valid_date in Hb.
  destruct d as [y m dd]. simpl in Hb.
  pose proof (days_in_month_le y m).
  unfold iso_text, strptime. simpl year. simpl month. simpl day.
  change (pad4 y ++ "-" ++ pad2 m ++ "-" ++ pad2 dd)%string
    with (pad4 y +:+ String "-" (pad2 m +:+ String "-" (pad2 dd))).
  rewrite parse_Y_pad4 by lia. simpl.
  rewrite parse_m_pad2 by lia. simpl.
  rewrite parse_d_pad2 by lia. simpl.
  by rewrite Hv.
Qed.

Lemma strftime_short d :
  0 <= year d < 1000 -> (String.length (strftime d) < 10)%nat.
Proof.
  intros Hy. unfold strftime, year_text.
  destruct (Z.ltb_spec (year d) 10); [simpl; lia|].
  destruct (Z.ltb_spec (year d) 100); [simpl; lia|].
  destruct (Z.ltb_spec (year d) 1000); [simpl; lia|]. lia.
Qed.

(** The object [jsonify] gets for a row shows the row. *)
Lemma task_json_shows t : shows t (Main.task_json t).
Proof. repeat split. Qed.




(** ** Store errors in [src/app/main.py] *)

(** In the create, update and delete routes of [src/app/main.py], a run in
    which a call on the pool or the store raised is answered with status 500
    and one of four fixed bodies; when a connection had been acquired, the
    last two calls of the run are the rollback and the release. *)
Lemma main_store_error_is_generic
  (now : datetime) (faults : op -> option string) (method path : string)
  (r : Main.request) (w : world) :
  r <> Main.GetTasks ->
  let '(resp, w') := Main.serve method path (Main.route now faults r) w in
  exists tr, calls w' = (calls w ++ tr)%list
    /\ (failed tr = false
        \/ (resp.2 = 500 /\ resp.1 ∈ generic_bodies
            /\ (acquired tr = 0%nat
                \/ exists pre ok,
                     tr = (pre ++ [(Rollback, ok); (Putconn, true)])%list))).
Proof.
  destruct w as [tb nx wk iu cv cl lg].
  destruct r as [|data|task_id data|task_id]; [done|..]; intros _; run_route.
  all: trace_suffix.
  all: first
    [ left; reflexivity
    | right; split; [reflexivity|]; split;
      [unfold generic_bodies; set_solver|];
      first
        [ left; reflexivity
        | right;
          match goal with
          | |- exists pre ok, ?tr = _ =>
              exists (removelast (removelast tr)); eexists; reflexivity
          end ] ].
Qed.

(** ** Store errors in [src/backend/app.py] *)

(** C8, the failing case: in [src/backend/app.py] a store error on the
    insert is answered with the text of the error, and the route neither
    rolls back nor closes the connection. *)
Lemma backend_create_echoes_store_error :
  Backend.validate_task_data sample_now scenario_A_assigned = Ok None
  /\ Backend.add_task sample_now
       (fault_at Execute "relation tasks does not exist")
       scenario_A_assigned empty_world
     = (Ok (error_body "Database error: relation tasks does not exist", 500),
        mkWorld [] 1 None 0 None
          [(Connect, true); (Cursor, true); (Execute, false)] []).
Proof. vm_compute. done. Qed.

(** * Further properties of the code *)

(** ** The name pattern *)

Lemma at_dollar_cases s :
  at_dollar s = true
  <-> s = "" \/ (String.length s = 1%nat /\ ends_newline s = true).
Proof.
  destruct s as [|c [|c' s]]; simpl.
  - split; [by left | done].
  - split; [by right | by intros [? | [_ ?]]].
  - split; [done | intros [? | [? _]]; [done | lia]].
Qed.

Lemma ends_newline_cons c s :
  s <> "" -> ends_newline (String c s) = ends_newline s.
Proof. by destruct s. Qed.

Lemma nonempty_length s : (1 <= String.length s)%nat -> s <> "".
Proof. destruct s; simpl; [lia | done]. Qed.

Lemma rep_name_char_exact lo hi s :
  rep_name_char lo hi s = true
  <-> all_name_char s = true
      /\ ((lo <= String.length s <= hi)%nat
          \/ ((lo <= hi)%nat /\ String.length s = S hi
              /\ ends_newline s = true)).
Proof.
  revert lo s. induction hi as [|hi IH]; intros lo s.
  - simpl. rewrite andb_true_iff, Nat.eqb_eq, at_dollar_cases. split.
    + intros [-> [-> | [Hl He]]]; [split; [done|left; simpl; lia]|].
      split; [|right; split_and!; (done || lia)].
      apply at_dollar_short. apply at_dollar_cases. by right.
    + intros [Ha [Hl | (Hlo & Hl & He)]].
      * split; [lia|]. left. destruct s; simpl in *; [done|lia].
      * split; [lia|]. by right.
  - destruct s as [|c s].
    + simpl. rewrite andb_true_iff, Nat.eqb_eq. split.
      * intros [-> _]. split; [done|]. left. lia.
      * intros [_ [Hl | (_ & Hl & _)]]; [split; [lia|done] | lia].
    + change (rep_name_char lo (S hi) (String c s))
        with ((name_char c && rep_name_char (Nat.pred lo) hi s)
              || (Nat.eqb lo 0 && at_dollar (String c s))).
      rewrite orb_true_iff, !andb_true_iff, IH, Nat.eqb_eq.
      change (all_name_char (String c s)) with (name_char c && all_name_char s).
      rewrite andb_true_iff.
      change (String.length (String c s)) with (S (String.length s)).
      split.
      * intros [[Hc [Ha [Hl | (Hlo & Hl & He)]]] | [-> Hd]].
        -- split; [done|]. left. lia.
        -- split; [done|]. right. split_and!; try lia.
           rewrite ends_newline_cons; [done|]. apply nonempty_length. lia.
        -- pose proof (at_dollar_short _ Hd) as [Hl Ha].
           change (all_name_char (String c s))
             with (name_char c && all_name_char s) in Ha.
           apply andb_true_iff in Ha. split; [done|]. left.
           simpl in Hl. lia.
      * intros [[Hc Ha] [Hl | (Hlo & Hl & He)]].
        -- left. split; [done|]. split; [done|]. left. lia.
        -- left. split; [done|]. split; [done|]. right.
           split_and!; try lia.
           rewrite <- (ends_newline_cons c); [done|].
           apply nonempty_length. lia.
Qed.

(** X1: the name pattern [^[\w\s\-()]{3,100}$] accepts exactly the strings
    made of characters of the class alone that have 3 to 100 characters, or
    101 characters the last of which is a newline ([$] also matches before a
    final newline, and the newline is itself in [\s]). *)
Theorem name_pattern_exact (s : string) :
  name_re_match s = true
  <-> all_name_char s = true
      /\ ((3 <= String.length s <= 100)%nat
          \/ (String.length s = 101%nat /\ ends_newline s = true)).
Proof.
  unfold name_re_match. rewrite rep_name_char_exact. split.
  - intros [Ha [H | (_ & Hl & He)]]; (split; [done|]); [by left | by right].
  - intros [Ha [H | [Hl He]]]; (split; [done|]); [by left|].
    right. split_and!; (done || lia).
Qed.

(** ** Required fields and values of the wrong type *)

Lemma priority_in_list (p : string) :
  p ∈ ["Low"; "Medium"; "High"]
  <-> p = "Low" \/ p = "Medium" \/ p = "High".
Proof. rewrite !elem_of_cons, elem_of_nil. tauto. Qed.

(** X2: a payload with no [name] is rejected with the name message whatever
    else it holds; once the name is accepted, the priority message is the
    answer exactly when [priority] is not one of the three strings "Low",
    "Medium", "High" - absent, not a string, or spelt otherwise. *)
Theorem name_and_priority_are_required (now : datetime) (data : payload) :
  (data !! "name" = None ->
   Main.validate_task_data now data = Ok (Some Main.name_rejection))
  /\ (forall name,
        data !! "name" = Some (JStr name) -> name_re_match name = true ->
        (Main.validate_task_data now data = Ok (Some Main.priority_rejection)
         <-> ~ exists p, data !! "priority" = Some (JStr p)
                         /\ (p = "Low" \/ p = "Medium" \/ p = "High"))).
Proof.
  split.
  - intros Hn. unfold Main.validate_task_data, get. by rewrite Hn.
  - intros name Hn Hm. unfold Main.validate_task_data, get.
    rewrite Hn, Hm. simpl.
    destruct (data !! "priority") as [[| | |p| |]|] eqn:Hp; simpl;
      try (split; [intros _; by intros (p' & [=] & _) | done]).
    rewrite priority_eqb_elem.
    destruct (bool_decide_reflect (p ∈ ["Low"; "Medium"; "High"])) as [Hin|Hin];
      simpl.
    + split; [|intros []; exists p; split; [done|by apply priority_in_list]].
      intros H. exfalso. revert H.
      repeat case_match; done.
    + split; [|done]. intros _ (p' & [= <-] & Hp').
      by apply Hin, priority_in_list.
Qed.

(** X3: a [name] that is not a string, or - name and priority being
    accepted - a truthy [deadline] that is not a string, makes
    [validate_task_data] raise [TypeError]; nothing in [add_task] catches
    it and no call is made on the pool or the store.  Flask logs the
    exception as "Exception on /tasks [POST]", which is all that changes,
    and the create request is answered by the handler of 500. *)
Theorem non_text_field_is_an_internal_error
  (now : datetime) (faults : op -> option string) (data : payload)
  (w : world) (v : json) :
  (forall s, v <> JStr s) ->
  data !! "name" = Some v
  \/ (exists name p,
        data !! "name" = Some (JStr name) /\ name_re_match name = true
        /\ data !! "priority" = Some (JStr p)
        /\ (p = "Low" \/ p = "Medium" \/ p = "High")
        /\ data !! "deadline" = Some v /\ truthy v = true) ->
  Main.validate_task_data now data = Raise TypeError
  /\ Main.add_task now faults data w = (Raise TypeError, w)
  /\ Main.serve "POST" "/tasks" (Main.add_task now faults data) w
     = (Main.internal_error, record_log "Exception on /tasks [POST]" w).
Proof.
  intros Hv Hcase.
  assert (Main.validate_task_data now data = Raise TypeError) as Hr.
  { unfold Main.validate_task_data, get.
    destruct Hcase as [Hn | (name & p & Hn & Hm & Hp & Hin & Hd & Ht)].
    - rewrite Hn. destruct v; try done. by destruct (Hv s).
    - rewrite Hn, Hm, Hp, Hd, Ht. simpl. rewrite priority_eqb_elem.
      rewrite bool_decide_eq_true_2 by (by apply priority_in_list). simpl.
      destruct v; try done. by destruct (Hv s). }
  split; [done|].
  unfold Main.serve, Main.add_task, mbind, M_bind, lift. by rewrite Hr.
Qed.

Lemma non_text_field_is_an_internal_error_witness :
  Main.serve "POST" "/tasks"
    (Main.add_task sample_now no_faults
       (<["name" := JInt 5]> scenario_A)) empty_world
  = (Main.internal_error,
     mkWorld [] 1 None 0 None [] ["Exception on /tasks [POST]"]).
Proof.
  apply (non_text_field_is_an_internal_error sample_now no_faults
           (<["name" := JInt 5]> scenario_A) empty_world (JInt 5)).
  - intros s. discriminate.
  - left. vm_compute. reflexivity.
Defined.

(** ** The deadline block *)

Lemma accepted_name_and_priority data name p :
  data !! "name" = Some (JStr name) -> name_re_match name = true ->
  data !! "priority" = Some (JStr p) ->
  p = "Low" \/ p = "Medium" \/ p = "High" ->
  Contract.check_name data = Ok None
  /\ Contract.check_priority data = Ok None.
Proof.
  intros Hn Hm Hp Hin. unfold Contract.check_name, Contract.check_priority, get.
  rewrite Hn, Hm, Hp.
  by rewrite bool_decide_eq_true_2 by (by apply priority_in_list).
Qed.

(** X4: on a payload whose name and priority are accepted and that holds
    no denylisted text, a non-empty text deadline decides the result: a
    text [strptime] refuses gives the format message; a date before the day
    of [now] gives the past message; a date after it is accepted; the day
    of [now] itself is accepted at 00:00:00.000000 only, and gives the past
    message at any later time of that day. *)
Theorem deadline_decides
  (now : datetime) (data : payload) (name p s : string) :
  data !! "name" = Some (JStr name) -> name_re_match name = true ->
  data !! "priority" = Some (JStr p) ->
  p = "Low" \/ p = "Medium" \/ p = "High" ->
  existsb Main.suspicious (values data) = false ->
  data !! "deadline" = Some (JStr s) -> s <> "" ->
  (strptime s = None ->
   Main.validate_task_data now data = Ok (Some Main.format_rejection))
  /\ (forall d, strptime s = Some d ->
        (date_lt d (dt_date now) = true ->
         Main.validate_task_data now data = Ok (Some Main.past_rejection))
        /\ (date_lt (dt_date now) d = true ->
            Main.validate_task_data now data = Ok None)
        /\ (d = dt_date now ->
            Main.validate_task_data now data
            = if 0 <? time_of now then Ok (Some Main.past_rejection)
              else Ok None)).
Proof.
  intros Hn Hm Hp Hin Hscan Hd Hs.
  destruct (accepted_name_and_priority data name p Hn Hm Hp Hin) as [Hcn Hcp].
  assert (Contract.check_injection data = Ok None) as Hci.
  { unfold Contract.check_injection. by rewrite Hscan. }
  rewrite (deadline_rule now data s Hcn Hcp Hci Hd Hs).
  split; [by intros ->|]. intros d ->. split_and!.
  - by intros ->.
  - intros Hlt. by rewrite (date_lt_asym _ _ Hlt), Hlt.
  - intros ->. by rewrite date_lt_irrefl.
Qed.

Lemma deadline_decides_witness :
  Main.validate_task_data sample_now scenario_A = Ok None.
Proof.
  refine (proj1 (proj2 (proj2
    (deadline_decides sample_now scenario_A "Write spec" "High" "2099-01-01"
       _ _ _ _ _ _ _) (mkDate 2099 1 1) _)) _);
    try (vm_compute; reflexivity).
  - right. right. reflexivity.
  - discriminate.
Defined.

Lemma scan_insert_falsy data v :
  truthy v = false ->
  existsb Main.suspicious (values (<["deadline" := v]> data))
  = existsb Main.suspicious (values (delete "deadline" data)).
Proof.
  intros Hv. apply eq_true_iff_eq. rewrite !suspicious_value. split.
  - intros (k & s & Hk & Hs). exists k, s. split; [|done].
    destruct (decide (k = "deadline")) as [->|Hne].
    + rewrite lookup_insert_eq in Hk. injection Hk as ->.
      simpl in Hv. destruct (String.eqb_spec s ""); [subst|done].
      by vm_compute in Hs.
    + rewrite lookup_insert_ne in Hk by done. by rewrite lookup_delete_ne.
  - intros (k & s & Hk & Hs). exists k, s. split; [|done].
    destruct (decide (k = "deadline")) as [->|Hne].
    + by rewrite lookup_delete_eq in Hk.
    + rewrite lookup_delete_ne in Hk by done. by rewrite lookup_insert_ne.
Qed.

(** X5: a deadline that is falsy - the empty string, null, 0, false, an
    empty array or object - is not looked at: the payload is validated
    exactly as the payload without the [deadline] key. *)
Theorem falsy_deadline_is_no_deadline
  (now : datetime) (data : payload) (v : json) :
  truthy v = false ->
  Main.validate_task_data now (<["deadline" := v]> data)
  = Main.validate_task_data now (delete "deadline" data).
Proof.
  intros Hv. unfold Main.validate_task_data, get.
  rewrite (scan_insert_falsy data v Hv).
  rewrite lookup_insert_eq, lookup_delete_eq, Hv.
  by rewrite !lookup_insert_ne, !lookup_delete_ne by done.
Qed.

Lemma falsy_deadline_is_no_deadline_witness :
  Main.validate_task_data sample_now (<["deadline" := JStr ""]> scenario_A)
  = Main.validate_task_data sample_now (delete "deadline" scenario_A).
Proof. apply falsy_deadline_is_no_deadline. reflexivity. Defined.

(** ** What [strptime] accepts *)

Lemma date_text_safe s : date_text s = true -> sql_injection_search s = false.
Proof.
  induction s as [|c s IH]; [reflexivity|]. intros H.
  change (date_text (String c s))
    with ((date_char c
           || ((code c =? 45)%N
               && match s with "" => true | String c' _ => date_char c' end))
          && date_text s) in H.
  apply andb_true_iff in H as [Hc Hs].
  change (sql_injection_search (String c s))
    with (existsb (fun lit => prefix_ci lit (String c s)) denylist
          || sql_injection_search s).
  rewrite (IH Hs), orb_false_r. clear IH Hs.
  unfold denylist. cbn [existsb prefix_ci].
  destruct c as [[] [] [] [] [] [] [] []];
    try (vm_compute in Hc; discriminate Hc); try (vm_compute; reflexivity).
  destruct s as [|c' s]; [reflexivity|].
  destruct c' as [[] [] [] [] [] [] [] []];
    try (vm_compute in Hc; discriminate Hc); vm_compute; reflexivity.
Qed.

Lemma between_digit lo hi c :
  (48 <= lo)%N -> (hi <= 57)%N -> between lo hi c = true -> is_digit c = true.
Proof.
  unfold is_digit, between. rewrite !andb_true_iff, !N.leb_le. lia.
Qed.

Lemma digit_date_char c : is_digit c = true -> date_char c = true.
Proof. unfold date_char. by intros ->. Qed.

Lemma parse_Y_shape s y r :
  parse_Y s = Some (y, r) ->
  exists a b c e,
    s = String a (String b (String c (String e r)))
    /\ is_digit a = true /\ is_digit b = true /\ is_digit c = true
    /\ is_digit e = true.
Proof.
  unfold parse_Y. destruct s as [|a [|b [|c [|e r']]]]; try done.
  destruct (is_digit a) eqn:Ha, (is_digit b) eqn:Hb, (is_digit c) eqn:Hc,
    (is_digit e) eqn:He; try done.
  intros [= _ ->]. by exists a, b, c, e.
Qed.

Lemma parse_m_shape s m r :
  parse_m s = Some (m, r) ->
  (exists a, s = String a r /\ is_digit a = true)
  \/ (exists a b, s = String a (String b r)
                  /\ is_digit a = true /\ is_digit b = true).
Proof.
  unfold parse_m. destruct s as [|a [|b r']].
  - done.
  - destruct (between 49 57 a) eqn:Ha; [|done]. intros [= _ <-].
    left. exists a. split; [done|]. by eapply between_digit; [..|exact Ha].
  - destruct ((code a =? 49)%N && between 48 50 b) eqn:H1.
    { intros [= _ <-]. right. exists a, b.
      apply andb_true_iff in H1 as [Ha Hb]. apply N.eqb_eq in Ha.
      split; [done|]. split; [|by eapply between_digit; [..|exact Hb]].
      unfold is_digit, between. by rewrite Ha. }
    destruct ((code a =? 48)%N && between 49 57 b) eqn:H2.
    { intros [= _ <-]. right. exists a, b.
      apply andb_true_iff in H2 as [Ha Hb]. apply N.eqb_eq in Ha.
      split; [done|]. split; [|by eapply between_digit; [..|exact Hb]].
      unfold is_digit, between. by rewrite Ha. }
    destruct (between 49 57 a) eqn:Ha; [|done]. intros [= _ <-].
    left. exists a. split; [done|]. by eapply between_digit; [..|exact Ha].
Qed.

Lemma parse_d_shape s d r :
  parse_d s = Some (d, r) ->
  (exists a, s = String a r /\ is_digit a = true)
  \/ (exists a b, s = String a (String b r)
                  /\ date_char a = true /\ is_digit b = true).
Proof.
  unfold parse_d. destruct s as [|a [|b r']].
  - done.
  - destruct (between 49 57 a) eqn:Ha; [|done]. intros [= _ <-].
    left. exists a. split; [done|]. by eapply between_digit; [..|exact Ha].
  - destruct ((code a =? 51)%N && between 48 49 b) eqn:H1.
    { intros [= _ <-]. right. exists a, b.
      apply andb_true_iff in H1 as [Ha Hb]. apply N.eqb_eq in Ha.
      split; [done|]. split; [|by eapply between_digit; [..|exact Hb]].
      unfold date_char, is_digit, between. by rewrite Ha. }
    destruct (between 49 50 a && is_digit b) eqn:H2.
    { intros [= _ <-]. right. exists a, b.
      apply andb_true_iff in H2 as [Ha Hb].
      split; [done|]. split; [|done].
      apply digit_date_char. by eapply between_digit; [..|exact Ha]. }
    destruct ((code a =? 48)%N && between 49 57 b) eqn:H3.
    { intros [= _ <-]. right. exists a, b.
      apply andb_true_iff in H3 as [Ha Hb]. apply N.eqb_eq in Ha.
      split; [done|]. split; [|by eapply between_digit; [..|exact Hb]].
      unfold date_char, is_digit, between. by rewrite Ha. }
    destruct (between 49 57 a) eqn:Ha.
    { intros [= _ <-]. left. exists a. split; [done|].
      by eapply between_digit; [..|exact Ha]. }
    destruct ((code a =? 32)%N && between 49 57 b) eqn:H4; [|done].
    intros [= _ <-]. right. exists a, b.
    apply andb_true_iff in H4 as [Ha' Hb].
    split; [done|]. split; [|by eapply between_digit; [..|exact Hb]].
    unfold date_char. by rewrite Ha', orb_true_r.
Qed.

Lemma expect_hyphen_shape s r :
  expect_hyphen s = Some r -> exists h, s = String h r /\ (code h =? 45)%N = true.
Proof.
  unfold expect_hyphen. destruct s as [|h r']; [done|].
  destruct (code h =? 45)%N eqn:Hh; [|done]. intros [= <-]. by exists h.
Qed.

(** X6: a text that [strptime] accepts with the format [%Y-%m-%d] denotes
    an existing date of the years 1 to 9999, has 8 to 10 characters (month
    and day may have one digit) and never matches the injection pattern:
    the deadline check and the denylist scan cannot contradict each other on
    a deadline. *)
Theorem parsed_deadline_is_safe (s : string) (d : date) :
  strptime s = Some d ->
  valid_date d = true
  /\ (8 <= String.length s <= 10)%nat
  /\ sql_injection_search s = false.
Proof.
  unfold strptime. intros H.
  destruct (parse_Y s) as [[y r1]|] eqn:HY; [|done]. simpl in H.
  destruct (expect_hyphen r1) as [r2|] eqn:H1; [|done]. simpl in H.
  destruct (parse_m r2) as [[m r3]|] eqn:HM; [|done]. simpl in H.
  destruct (expect_hyphen r3) as [r4|] eqn:H2; [|done]. simpl in H.
  destruct (parse_d r4) as [[dd r5]|] eqn:HD; [|done]. simpl in H.
  destruct (String.eqb_spec r5 ""); [subst r5|done]. simpl in H.
  destruct (valid_date (mkDate y m dd)) eqn:Hv; [|done].
  injection H as <-. split; [done|].
  apply parse_Y_shape in HY as (a & b & c & e & -> & Ha & Hb & Hc & He).
  apply expect_hyphen_shape in H1 as (h1 & -> & Hh1).
  apply expect_hyphen_shape in H2 as (h2 & -> & Hh2).
  apply parse_m_shape in HM.
  apply parse_d_shape in HD.
  destruct HM as [(ma & -> & Hma) | (ma & mb & -> & Hma & Hmb)];
    destruct HD as [(da & -> & Hda) | (da & db & -> & Hda & Hdb)].
  all: split; [simpl; lia|].
  all: apply date_text_safe; simpl.
  all: rewrite ?Hh1, ?Hh2, ?(digit_date_char _ Ha), ?(digit_date_char _ Hb),
         ?(digit_date_char _ Hc), ?(digit_date_char _ He),
         ?(digit_date_char _ Hma), ?(digit_date_char _ Hmb),
         ?(digit_date_char _ Hda), ?(digit_date_char _ Hdb), ?Hda,
         ?orb_true_r; reflexivity.
Qed.

Lemma parsed_deadline_is_safe_witness :
  valid_date (mkDate 2099 1 5) = true
  /\ (8 <= String.length "2099-1-5" <= 10)%nat
  /\ sql_injection_search "2099-1-5" = false.
Proof. apply parsed_deadline_is_safe. reflexivity. Defined.

(** ** The denylist scan *)

Lemma string_app_assoc (a b c : string) : (a +:+ b) +:+ c = a +:+ b +:+ c.
Proof.
  induction a as [|x a IH]; [done|].
  change (String x ((a +:+ b) +:+ c) = String x (a +:+ b +:+ c)).
  by rewrite IH.
Qed.

Lemma lower_idempotent c : lower (lower c) = lower c.
Proof. destruct c as [[] [] [] [] [] [] [] []]; reflexivity. Qed.

Lemma prefix_ci_lower lit s :
  prefix_ci lit (Contract.lower_string s) = prefix_ci lit s.
Proof.
  revert s. induction lit as [|a lit IH]; intros s; [by destruct s|].
  destruct s as [|b s]; [done|]. simpl. by rewrite lower_idempotent, IH.
Qed.

Lemma sql_injection_search_lower s :
  sql_injection_search (Contract.lower_string s) = sql_injection_search s.
Proof.
  induction s as [|c s IH]; [done|].
  change (Contract.lower_string (String c s))
    with (String (lower c) (Contract.lower_string s)).
  change (sql_injection_search (String (lower c) (Contract.lower_string s)))
    with (existsb (fun lit =>
                     prefix_ci lit (Contract.lower_string (String c s)))
            denylist
          || sql_injection_search (Contract.lower_string s)).
  change (sql_injection_search (String c s))
    with (existsb (fun lit => prefix_ci lit (String c s)) denylist
          || sql_injection_search s).
  rewrite IH. f_equal. unfold denylist. cbn [existsb].
  by rewrite !prefix_ci_lower.
Qed.

(** X7: the injection pattern looks at the letters A to Z without their
    case - two texts that are equal once each of the letters A to Z is
    replaced by its small letter, every other character being left as it
    is, are both matched or both not - and at any position: a text that
    contains a matched text is matched, whatever precedes and follows
    it. *)
Theorem scan_ignores_case_and_position :
  (forall s1 s2,
     Contract.lower_string s1 = Contract.lower_string s2 ->
     sql_injection_search s1 = sql_injection_search s2)
  /\ (forall pre s post,
        sql_injection_search s = true ->
        sql_injection_search (pre +:+ s +:+ post) = true).
Proof.
  split.
  - intros s1 s2 H.
    by rewrite <- (sql_injection_search_lower s1), H,
         sql_injection_search_lower.
  - intros pre s post H.
    apply sql_injection_search_occurs in H
      as (lit & Hin & p & mid & q & -> & Hm).
    apply sql_injection_search_occurs. exists lit. split; [done|].
    exists (pre +:+ p), mid, (q +:+ post). split; [|done].
    by rewrite !string_app_assoc.
Qed.

(** ** The two validations *)

(** The deadline check depends on the clock only through the comparison
    of the date the deadline denotes. *)
Lemma check_deadline_same_side now1 now2 data :
  (forall s d, data !! "deadline" = Some (JStr s) -> strptime s = Some d ->
     datetime_lt (midnight d) now1 = datetime_lt (midnight d) now2) ->
  Contract.check_deadline now1 data = Contract.check_deadline now2 data.
Proof.
  intros H. unfold Contract.check_deadline.
  destruct (data !! "deadline") as [v|] eqn:Hd; [|done].
  destruct (truthy v); [|done].
  destruct v as [| | |s| |]; try done.
  destruct (strptime s) as [d|] eqn:Hs; [|done].
  by rewrite (H s d eq_refl Hs).
Qed.

(** X8: the two validations read different clocks, [src/app/main.py] the
    time in UTC and [src/backend/app.py] the local time of the server.
    Whenever the date of the payload's deadline, if it has one that
    [strptime] reads, lies on the same side of both readings, the
    validation of [src/backend/app.py] is that of [src/app/main.py]
    without the denylist scan: what the first rejects or raises, the second
    rejects or raises alike; and a payload the first accepts is refused by
    the second with "Invalid input detected" only, exactly when one of its
    string values matches the injection pattern. *)
Theorem main_validation_is_backend_then_scan
  (now_utc now_local : datetime) (data : payload) :
  (forall s d, data !! "deadline" = Some (JStr s) -> strptime s = Some d ->
     datetime_lt (midnight d) now_utc = datetime_lt (midnight d) now_local) ->
  Main.validate_task_data now_utc data
  = match Backend.validate_task_data now_local data with
    | Ok None =>
        if existsb Main.suspicious (values data)
        then Ok (Some Main.injection_rejection)
        else Ok None
    | decided => decided
    end.
Proof.
  intros Hside.
  rewrite first_failure_validate, backend_first_failure_validate.
  rewrite (check_deadline_same_side now_utc now_local data Hside).
  unfold Contract.check_injection. simpl.
  destruct (Contract.check_name data) as [[?|]|]; try done.
  destruct (Contract.check_priority data) as [[?|]|]; try done.
  destruct (Contract.check_deadline now_local data) as [[?|]|]; try done.
  by destruct (existsb _ _).
Qed.

Lemma main_validation_is_backend_then_scan_witness :
  Main.validate_task_data sample_now scenario_A
  = match Backend.validate_task_data sample_local scenario_A with
    | Ok None =>
        if existsb Main.suspicious (values scenario_A)
        then Ok (Some Main.injection_rejection)
        else Ok None
    | decided => decided
    end.
Proof.
  apply main_validation_is_backend_then_scan.
  intros s d Hs Hd. vm_compute in Hs. injection Hs as <-.
  vm_compute in Hd. injection Hd as <-. reflexivity.
Defined.

(** ** What the routes of [src/app/main.py] answer *)

(** X9: whatever the payload, the table and the store do, the client of
    [src/app/main.py] receives 200 or 500 from the list route; 201, 400 or
    500 from the create route; 200, 400, 404 or 500 from the update route;
    200, 404 or 500 from the delete route. *)
Theorem status_codes_of_the_routes
  (now : datetime) (faults : op -> option string) (method path : string)
  (r : Main.request) (w : world) :
  let status := (Main.serve method path (Main.route now faults r) w).1.2 in
  match r with
  | Main.GetTasks => status = 200 \/ status = 500
  | Main.PostTask _ => status = 201 \/ status = 400 \/ status = 500
  | Main.PutTask _ _ =>
      status = 200 \/ status = 400 \/ status = 404 \/ status = 500
  | Main.DeleteTaskById _ => status = 200 \/ status = 404 \/ status = 500
  end.
Proof.
  destruct w as [tb nx wk iu cv cl lg].
  destruct r as [|data|task_id data|task_id]; run_route; simpl; auto.
  right. left. by eapply rejection_status.
Qed.

(** X10: a route changes the table only when it answers 200 to an update or
    a delete, or 201 to a create: on every other exit - a rejection, a 404,
    a 500, an exception that escapes - the table is the one the route
    started from, whichever call raised and whatever had been executed
    before. *)
Theorem table_changes_only_on_success
  (now : datetime) (faults : op -> option string) (r : Main.request)
  (w : world) :
  let '(res, w') := Main.route now faults r w in
  table w' = table w
  \/ (r <> Main.GetTasks
      /\ (status_of res = Some 200 \/ status_of res = Some 201)).
Proof.
  destruct w as [tb nx wk iu cv cl lg].
  destruct r as [|data|task_id data|task_id]; run_route; simpl;
    try (by left); right; (split; [done|]); auto.
Qed.

(** ** What a success of a route means *)

Lemma run_insert name progress assigned_to deadline priority rows next
    rows' next' cur :
  run_sql (InsertTask name progress assigned_to deadline priority) rows next
  = Some (rows', next', cur) ->
  exists n p a d pr,
    name = JStr n /\ as_integer progress = Some p /\ priority = JStr pr
    /\ as_nullable_text assigned_to = Some a
    /\ as_nullable_date deadline = Some d
    /\ rows' = (rows ++ [mkTask next n p a d pr])%list
    /\ next' = next + 1 /\ cur = mkCursor 1 [] [next].
Proof.
  unfold run_sql. intros H.
  destruct name as [| | |n| |]; try done. simpl in H.
  destruct (as_integer progress) as [p|]; [|done]. simpl in H.
  destruct (as_nullable_text assigned_to) as [a|]; [|done]. simpl in H.
  destruct (as_nullable_date deadline) as [d|]; [|done]. simpl in H.
  destruct priority as [| | |pr| |]; try done. simpl in H.
  injection H as <- <- <-. by exists n, p, a, d, pr.
Qed.

Lemma getitem_ok data key v : getitem data key = Ok v -> data !! key = Some v.
Proof. unfold getitem. destruct (data !! key); by intros [= ->]. Qed.

Lemma add_task_created now faults data tb nx iu cv cl lg body w' :
  Main.add_task now faults data (mkWorld tb nx None iu cv cl lg)
  = (Ok (body, 201), w') ->
  Main.validate_task_data now data = Ok None
  /\ exists n p a d pr,
       data !! "name" = Some (JStr n)
       /\ data !! "priority" = Some (JStr pr)
       /\ as_integer (get data "progress" (JInt 0)) = Some p
       /\ as_nullable_text (get data "assigned_to" JNull) = Some a
       /\ as_nullable_date (get data "deadline" JNull) = Some d
       /\ body = JObj [("message", JStr "Task added successfully");
                       ("id", JInt nx)]
       /\ w' = mkWorld (tb ++ [mkTask nx n p a d pr])%list (nx + 1) None iu
                 (Some Connection)
                 (cl ++ [(Getconn, true); (Cursor, true); (Execute, true);
                         (Fetch, true); (Commit, true); (CursorClose, true);
                         (Putconn, true)])%list lg.
Proof.
  run_route; intros H; try discriminate H.
  { injection H as -> _.
    match goal with
    | Hr : Main.validate_task_data _ _ = Ok (Some _) |- _ =>
        apply rejection_status in Hr; simpl in Hr; lia
    end. }
  all: match goal with
       | Hq : run_sql _ _ _ = Some _ |- _ =>
           apply run_insert in Hq
             as (n & p & a' & d & pr & Hn & Hp & Hpr & Ha & Hd & Hl & Hz & Hc)
       end;
    subst; simpl in *; simplify_eq; (split; [done|]);
    exists n, p, a', d, pr;
    repeat match goal with
           | Hg : getitem _ _ = Ok _ |- _ => apply getitem_ok in Hg
           end;
    split_and!; try done; by rewrite <- !app_assoc.
Qed.

(** X11: when the create route answers 201 (started with no transaction
    open), the payload had passed validation, exactly one row was appended
    to the table and committed, its id is the next value of the sequence and
    is the id of the answer, its name and priority are those of the payload,
    its progress is 0 when the payload has none and the payload's when that
    is an integer, deadline and assignee are null when the payload has none;
    the connection is back in the pool.  (What the store makes of a
    progress that is not an integer is left open.) *)
Theorem created_means_stored
  (now : datetime) (faults : op -> option string) (data : payload)
  (w w' : world) (body : json) :
  work w = None ->
  Main.add_task now faults data w = (Ok (body, 201), w') ->
  Main.validate_task_data now data = Ok None
  /\ body = JObj [("message", JStr "Task added successfully");
                  ("id", JInt (next_id w))]
  /\ next_id w' = next_id w + 1
  /\ in_use w' = in_use w /\ work w' = None
  /\ exists row,
       table w' = (table w ++ [row])%list
       /\ row_id row = next_id w
       /\ data !! "name" = Some (JStr (row_name row))
       /\ data !! "priority" = Some (JStr (row_priority row))
       /\ (data !! "progress" = None -> row_progress row = 0)
       /\ (forall n, data !! "progress" = Some (JInt n) ->
             row_progress row = n)
       /\ (data !! "deadline" = None -> row_deadline row = None)
       /\ (data !! "assigned_to" = None -> row_assigned_to row = None).
Proof.
  destruct w as [tb nx wk iu cv cl lg]. simpl. intros -> H.
  apply add_task_created in H
    as (Hv & n & p & a & d & pr & Hn & Hpr & Hp & Ha & Hd & -> & ->).
  simpl. split_and!; try done.
  exists (mkTask nx n p a d pr). simpl. split_and!; try done.
  - intros Hnone. unfold get in Hp. rewrite Hnone in Hp.
    by injection Hp as <-.
  - intros m Hm. unfold get in Hp. rewrite Hm in Hp. simpl in Hp.
    unfold int4 in Hp. destruct (_ && _); [|done]. by injection Hp as <-.
  - intros Hnone. unfold get in Hd. rewrite Hnone in Hd. simpl in Hd.
    congruence.
  - intros Hnone. unfold get in Ha. rewrite Hnone in Ha. simpl in Ha.
    congruence.
Qed.

Lemma created_means_stored_witness :
  exists row,
    table (Main.add_task sample_now no_faults scenario_A empty_world).2
    = (table empty_world ++ [row])%list
    /\ row_id row = 1 /\ row_progress row = 0.
Proof.
  destruct (Main.add_task sample_now no_faults scenario_A empty_world)
    as [res w'] eqn:E.
  assert (res = Ok (JObj [("message", JStr "Task added successfully");
                          ("id", JInt 1)], 201)) as ->.
  { vm_compute in E. by injection E as <- _. }
  destruct (created_means_stored sample_now no_faults scenario_A empty_world
              w' _ eq_refl E)
    as (_ & _ & _ & _ & _ & row & Ht & Hid & _ & _ & Hp & _).
  exists row. split; [exact Ht|]. split; [exact Hid|].
  apply Hp. reflexivity.
Defined.

Lemma run_update progress task_id rows next rows' next' cur :
  run_sql (UpdateProgress progress task_id) rows next
  = Some (rows', next', cur) ->
  exists p,
    as_integer progress = Some p
    /\ rows' = List.map (fun t => if has_id task_id t then with_progress p t
                                  else t) rows
    /\ next' = next /\ rowcount cur = count_id task_id rows.
Proof.
  unfold run_sql. destruct (as_integer progress) as [p|]; [|done]. simpl.
  intros [= <- <- <-]. by exists p.
Qed.

(** A value that passed the range check and that the integer column took. *)
Lemma checked_progress v p :
  Main.in_0_100 v = Ok true -> as_integer v = Some p ->
  0 <= p <= 100 /\ forall n, v = JInt n -> p = n.
Proof.
  destruct v as [| |n| | |]; simpl; try done.
  intros [= Hr] Hi. unfold int4 in Hi. destruct (_ && _) in Hi; [|done].
  injection Hi as <-. split; [lia|]. by intros m [= <-].
Qed.

Lemma count_id_zero task_id rows :
  count_id task_id rows = 0 <-> forall t, t ∈ rows -> row_id t <> task_id.
Proof.
  split; [|apply count_id_absent].
  unfold count_id. induction rows as [|t rows IH]; intros H t' Ht'.
  - by apply elem_of_nil in Ht'.
  - simpl in H. unfold has_id at 1 in H.
    destruct (Z.eqb_spec (row_id t) task_id); [simpl in H; lia|].
    apply elem_of_cons in Ht' as [-> | Ht']; [done|]. by apply IH.
Qed.

Lemma count_id_nonzero task_id rows :
  count_id task_id rows <> 0 -> exists t, t ∈ rows /\ row_id t = task_id.
Proof.
  unfold count_id. induction rows as [|t rows IH]; [done|]. simpl.
  unfold has_id at 1.
  destruct (Z.eqb_spec (row_id t) task_id) as [Heq|Hne].
  - intros _. exists t. split; [left|done].
  - intros H. destruct (IH H) as (t' & Ht' & Hid). exists t'.
    split; [by right|done].
Qed.

Ltac link_getitem :=
  repeat match goal with
         | Hg : getitem _ _ = Ok _ |- _ => apply getitem_ok in Hg
         end;
  repeat match goal with
         | H1 : ?d !! ?k = Some _, H2 : ?d !! ?k = Some _ |- _ =>
             rewrite H1 in H2; injection H2 as ?; subst
         end.

(** X12: what the answers of the update route mean (started with no
    transaction open).  200: the payload holds a progress that passed the
    range check, some row has the id, and the table is the former one with
    one value within [0,100] written as the progress of the rows of this id
    and nothing else changed; that value is the progress of the payload
    when this is an integer.  404: no row has the id and the table is
    unchanged.  400: the payload holds a progress that the range check finds
    outside [0,100] and the world is untouched. *)
Theorem update_answers
  (faults : op -> option string) (task_id : Z) (data : payload)
  (w w' : world) (res : result response) :
  work w = None ->
  Main.update_task faults task_id data w = (res, w') ->
  (status_of res = Some 200 ->
   exists v p,
     data !! "progress" = Some v /\ Main.in_0_100 v = Ok true
     /\ 0 <= p <= 100 /\ (forall n, v = JInt n -> p = n)
     /\ (exists t, t ∈ table w /\ row_id t = task_id)
     /\ table w'
        = List.map (fun t => if has_id task_id t then with_progress p t
                             else t) (table w))
  /\ (status_of res = Some 404 ->
      (forall t, t ∈ table w -> row_id t <> task_id)
      /\ table w' = table w)
  /\ (status_of res = Some 400 ->
      w' = w
      /\ exists v, data !! "progress" = Some v
                   /\ Main.in_0_100 v = Ok false).
Proof.
  destruct w as [tb nx wk iu cv cl lg]. simpl. intros ->.
  run_route; intros [= <- <-]; simpl;
    (split_and!; intros Hs; try discriminate Hs).
  all: try (split; [done|]; by eexists).
  all: match goal with
       | Hq : run_sql _ _ _ = Some _ |- _ =>
           apply run_update in Hq as (p & Hj & Hl & Hz & Hc)
       end;
    subst; link_getitem;
    match goal with
    | Hc : rowcount _ = _, Hz : (rowcount _ =? 0) = _ |- _ =>
        rewrite Hc in Hz
    end.
  all: match goal with
       | Hz : (count_id _ _ =? 0) = true |- _ => apply Z.eqb_eq in Hz
       | Hz : (count_id _ _ =? 0) = false |- _ => apply Z.eqb_neq in Hz
       end.
  all: try (split; [by apply count_id_zero | done]).
  all: try congruence.
  all: match goal with
       | Hr : Main.in_0_100 ?v = Ok true, Hj : as_integer ?v = Some ?p |- _ =>
           destruct (checked_progress v p Hr Hj) as [Hb Hi]; exists v, p
       end;
    (split; [done|]); (split; [done|]); (split; [exact Hb|]);
    (split; [exact Hi|]); split; [by apply count_id_nonzero | done].
Qed.

Lemma update_answers_witness :
  table (Main.update_task no_faults 1 {["progress" := JInt 50]}
           one_task_world).2
  = [mkTask 1 "Write spec" 50 None (Some (mkDate 2099 1 1)) "High"].
Proof.
  destruct (Main.update_task no_faults 1 {["progress" := JInt 50]}
              one_task_world) as [res w'] eqn:E.
  destruct (update_answers no_faults 1 {["progress" := JInt 50]}
              one_task_world w' res eq_refl E) as (H200 & _ & _).
  assert (status_of res = Some 200) as Hs.
  { vm_compute in E. by injection E as <- _. }
  destruct (H200 Hs) as (v & p & Hv & _ & _ & Hi & _ & Ht).
  vm_compute in Hv. injection Hv as <-. rewrite (Hi 50 eq_refl) in Ht.
  simpl. rewrite Ht. reflexivity.
Defined.

(** X13: what the answers of the delete route mean (started with no
    transaction open).  200: some row had the id, and the table is the
    former one without the rows of this id - no row of the id is left and
    every other row is still there.  404: no row has the id and the table is
    unchanged. *)
Theorem delete_answers
  (faults : op -> option string) (task_id : Z) (w w' : world)
  (res : result response) :
  work w = None ->
  Main.delete_task faults task_id w = (res, w') ->
  (status_of res = Some 200 ->
   (exists t, t ∈ table w /\ row_id t = task_id)
   /\ table w' = List.filter (fun t => negb (has_id task_id t)) (table w)
   /\ (forall t, t ∈ table w' <-> t ∈ table w /\ row_id t <> task_id))
  /\ (status_of res = Some 404 ->
      (forall t, t ∈ table w -> row_id t <> task_id)
      /\ table w' = table w).
Proof.
  destruct w as [tb nx wk iu cv cl lg]. simpl. intros ->.
  run_route; intros [= <- <-]; simpl;
    (split; intros Hs; try discriminate Hs).
  all: match goal with
       | Hz : (count_id _ _ =? 0) = true |- _ => apply Z.eqb_eq in Hz
       | Hz : (count_id _ _ =? 0) = false |- _ => apply Z.eqb_neq in Hz
       end.
  all: try (split; [by apply count_id_zero | done]).
  all: split; [by apply count_id_nonzero|]; split; [done|].
  all: intros t; rewrite !list_elem_of_In, filter_In;
    unfold has_id; rewrite negb_true_iff, Z.eqb_neq; tauto.
Qed.

Lemma delete_answers_witness :
  table (Main.delete_task no_faults 1 one_task_world).2 = [].
Proof.
  destruct (Main.delete_task no_faults 1 one_task_world) as [res w'] eqn:E.
  destruct (delete_answers no_faults 1 one_task_world w' res eq_refl E)
    as (H200 & _).
  assert (status_of res = Some 200) as Hs.
  { vm_compute in E. by injection E as <- _. }
  destruct (H200 Hs) as (_ & Ht & _). simpl. rewrite Ht. reflexivity.
Defined.

(** ** How the routes compose *)

Lemma count_id_present task_id rows :
  (exists t, t ∈ rows /\ row_id t = task_id) -> count_id task_id rows <> 0.
Proof.
  intros (t & Ht & Hid) H0. by apply (proj1 (count_id_zero task_id rows) H0 t).
Qed.

Lemma delete_present faults task_id w :
  faults Getconn = None -> faults Cursor = None -> faults Execute = None ->
  faults Commit = None ->
  (in_use w < maxconn)%nat -> work w = None ->
  (exists t, t ∈ table w /\ row_id t = task_id) ->
  Main.delete_task faults task_id w
  = (Ok (message_body "Task deleted successfully", 200),
     mkWorld (List.filter (fun t => negb (has_id task_id t)) (table w))
       (next_id w) None (in_use w) (Some Connection)
       (calls w ++ [(Getconn, true); (Cursor, true); (Execute, true);
                    (Commit, true); (CursorClose, true); (Putconn, true)])%list
       (logged w)).
Proof.
  destruct w as [tb nx wk iu cv cl lg]. simpl.
  intros Hg Hc He Hm Hiu -> Hex.
  apply count_id_present, Z.eqb_neq in Hex. apply pool_available in Hiu.
  unfold_route. rewrite Hg, Hiu. simpl. rewrite Hc, He. unfold run_sql. simpl.
  rewrite Hex, Hm. simpl. by rewrite <- !app_assoc.
Qed.

(** X14: deleting twice.  When the store raises no error and a row has the
    id, the first delete answers 200 and removes the rows of the id; the
    same delete, repeated on the world so obtained, answers 404 "Task not
    found" and changes nothing. *)
Theorem delete_twice
  (faults : op -> option string) (task_id : Z) (w : world) :
  faults Getconn = None -> faults Cursor = None -> faults Execute = None ->
  faults Commit = None ->
  (in_use w < maxconn)%nat -> work w = None ->
  (exists t, t ∈ table w /\ row_id t = task_id) ->
  exists w1 w2,
    Main.delete_task faults task_id w
    = (Ok (message_body "Task deleted successfully", 200), w1)
    /\ table w1 = List.filter (fun t => negb (has_id task_id t)) (table w)
    /\ Main.delete_task faults task_id w1 = (Ok task_not_found, w2)
    /\ table w2 = table w1.
Proof.
  intros Hg Hc He Hm Hiu Hwk Hex.
  rewrite (delete_present faults task_id w Hg Hc He Hm Hiu Hwk Hex).
  eexists. eexists. split; [reflexivity|]. split; [reflexivity|].
  rewrite (delete_missing faults task_id Hg Hc He); [done|done|done|].
  simpl. intros t Ht. apply list_elem_of_In, filter_In in Ht as [_ Ht].
  unfold has_id in Ht. by apply negb_true_iff, Z.eqb_neq in Ht.
Qed.

Lemma delete_twice_witness :
  exists w1 w2,
    Main.delete_task no_faults 1 one_task_world
    = (Ok (message_body "Task deleted successfully", 200), w1)
    /\ table w1
       = List.filter (fun t => negb (has_id 1 t)) (table one_task_world)
    /\ Main.delete_task no_faults 1 w1 = (Ok task_not_found, w2)
    /\ table w2 = table w1.
Proof.
  apply delete_twice; try reflexivity.
  - vm_compute. lia.
  - eexists. split; [left|reflexivity].
Defined.

Lemma get_tasks_ok faults w :
  (forall o, faults o = None) -> (in_use w < maxconn)%nat -> work w = None ->
  exists w',
    Main.get_tasks faults w
    = (Ok (JArr (Main.task_json <$> merge_sort id_le (table w)), 200), w').
Proof.
  destruct w as [tb nx wk iu cv cl lg]. simpl. intros Hf Hiu ->.
  apply pool_available in Hiu. unfold_route.
  rewrite ?Hf, Hiu. simpl. rewrite ?Hf. unfold run_sql. simpl.
  rewrite ?Hf. simpl. by eexists.
Qed.



(** ** When no connection can be had *)

(** X16: when [pool.getconn] raises, the list route answers 500 "Failed
    to retrieve tasks"; the delete route, the create route on a valid
    payload and the update route past its range check go to their [except]
    clause with [conn] still [None], where [conn.rollback()] raises
    [AttributeError]: the exception escapes the route and the client is
    answered by the handler of 500.  In every case the only call made is the
    failed [getconn]; table and pool are unchanged. *)
Theorem no_connection_available
  (now : datetime) (faults : op -> option string) (r : Main.request)
  (w : world) (text : string) :
  faults Getconn = Some text ->
  let '(res, w') := Main.route now faults r w in
  table w' = table w /\ in_use w' = in_use w
  /\ match r with
     | Main.GetTasks =>
         res = Ok (error_body "Failed to retrieve tasks", 500)
         /\ calls w' = (calls w ++ [(Getconn, false)])%list
     | Main.PostTask data =>
         Main.validate_task_data now data = Ok None ->
         res = Raise AttributeError
         /\ calls w' = (calls w ++ [(Getconn, false)])%list
     | Main.PutTask _ data =>
         data !! "progress" = None
         \/ (exists v, data !! "progress" = Some v
                       /\ Main.in_0_100 v = Ok true) ->
         res = Raise AttributeError
         /\ calls w' = (calls w ++ [(Getconn, false)])%list
     | Main.DeleteTaskById _ =>
         res = Raise AttributeError
         /\ calls w' = (calls w ++ [(Getconn, false)])%list
     end.
Proof.
  destruct w as [tb nx wk iu cv cl lg]. simpl. intros Hno.
  destruct r as [|data|task_id data|task_id]; unfold_route; rewrite ?Hno;
    simpl.
  - done.
  - destruct (Main.validate_task_data now data) as [[rej|]|e]; simpl;
      rewrite ?Hno; simpl; (split; [done|]; split; [done|]); by intros.
  - destruct (data !! "progress") as [v|] eqn:Hd; simpl.
    + destruct (Main.in_0_100 v) as [[|]|e] eqn:Hv; simpl; rewrite ?Hno;
        simpl; (split; [done|]; split; [done|]); try done;
        intros [? | (v' & [= <-] & ?)]; congruence.
    + rewrite ?Hno. simpl. done.
  - done.
Qed.

Lemma no_connection_available_witness :
  Main.route sample_now (fault_at Getconn "connection refused")
    (Main.DeleteTaskById 1) one_task_world
  = (Raise AttributeError,
     mkWorld (table one_task_world) 2 None 0 None [(Getconn, false)]
       ["Database error: connection refused"]).
Proof.
  pose proof (no_connection_available sample_now
                (fault_at Getconn "connection refused")
                (Main.DeleteTaskById 1) one_task_world
                "connection refused" eq_refl) as H.
  destruct (Main.route _ _ _ _) as [res w'] eqn:E.
  destruct H as (_ & _ & -> & _).
  vm_compute in E. by injection E as <-.
Defined.

(** X17: a [progress] that is a string (such as "50"), null, an array or
    an object makes the comparison [0 <= data['progress'] <= 100] raise
    [TypeError] before the [try]: no call is made on the pool or the store,
    Flask logs the exception as "Exception on <path> [PUT]", which is all
    that changes, and the update request is answered by the handler of 500,
    not by 400. *)
Theorem non_numeric_progress_is_an_internal_error
  (faults : op -> option string) (path : string) (task_id : Z)
  (data : payload) (v : json) (w : world) :
  data !! "progress" = Some v ->
  v = JNull \/ (exists s, v = JStr s) \/ (exists l, v = JArr l)
  \/ (exists l, v = JObj l) ->
  Main.update_task faults task_id data w = (Raise TypeError, w)
  /\ Main.serve "PUT" path (Main.update_task faults task_id data) w
     = (Main.internal_error,
        record_log ("Exception on " +:+ path +:+ " [PUT]") w).
Proof.
  intros Hd Hv.
  assert (Main.in_0_100 v = Raise TypeError) as Hr.
  { by destruct Hv as [-> | [[s ->] | [[l ->] | [l ->]]]]. }
  unfold Main.serve, Main.update_task, mbind, M_bind, lift.
  by rewrite Hd, Hr.
Qed.

Lemma non_numeric_progress_is_an_internal_error_witness :
  Main.serve "PUT" "/tasks/1"
    (Main.update_task no_faults 1 {["progress" := JStr "50"]}) one_task_world
  = (Main.internal_error,
     record_log "Exception on /tasks/1 [PUT]" one_task_world).
Proof.
  apply (non_numeric_progress_is_an_internal_error no_faults "/tasks/1" 1
           {["progress" := JStr "50"]} (JStr "50") one_task_world);
    [reflexivity | right; left; by eexists].
Defined.

(** ** The bound on the progress *)

(** X21: every route keeps the stored progress values within [0,100],
    provided a create request carries no progress or an integer progress
    within [0,100] (the create route itself does not check it). *)
Theorem progress_bound_is_kept
  (now : datetime) (faults : op -> option string) (r : Main.request)
  (w : world) :
  work w = None ->
  progress_bounded (table w) ->
  match r with
  | Main.PostTask data =>
      data !! "progress" = None
      \/ exists n, data !! "progress" = Some (JInt n) /\ 0 <= n <= 100
  | _ => True
  end ->
  progress_bounded (table (Main.route now faults r w).2).
Proof.
  intros Hwk Hb Hr. destruct r as [|data|task_id data|task_id].
  - destruct w as [tb nx wk iu cv cl lg]. simpl in *. subst.
    by run_route.
  - by apply create_keeps_progress_bounded.
  - by apply update_keeps_progress_bounded.
  - destruct w as [tb nx wk iu cv cl lg]. simpl in *. subst.
    run_route; try done.
    all: unfold progress_bounded in *; apply Forall_forall; intros t Ht;
      apply list_elem_of_In, filter_In in Ht as [Ht _];
      by apply (proj1 (Forall_forall _ _) Hb), list_elem_of_In.
Qed.

Lemma progress_bound_is_kept_witness :
  progress_bounded
    (table (Main.route sample_now no_faults
              (Main.PutTask 1 {["progress" := JInt 50]}) one_task_world).2).
Proof.
  apply progress_bound_is_kept; [reflexivity | | exact I].
  unfold progress_bounded. simpl. constructor; [simpl; lia | constructor].
Defined.

(** ** The routes of [src/backend/app.py] *)

Ltac unfold_backend :=
  cbv [Backend.route Backend.home Backend.get_tasks Backend.add_task
       Backend.update_task Backend.delete_task Backend.get_db_connection
       Backend.open_cursor Backend.cursor_close Backend.conn_close
       Backend.database_error execute fetchall fetchone_0 commit
       store_call try_except try_finally lift raise mbind mret M_bind M_ret
       set_conn_var set_work record_call record_log visible];
  simpl.

Ltac run_backend :=
  unfold_backend;
  repeat (first
    [ match goal with
      | |- context [if truthy ?v then _ else _] => destruct (truthy v) eqn:?
      end
    | run_step ]; simpl).

(** X18: the connection of a route of [src/backend/app.py].  A route
    opens at most one connection.  It closes it, as its last call, exactly
    when it answers 200, 201 or 404 from a route other than [/]; when it
    answers 500 after having connected - a store error, a missing key - the
    connection is left open, and the [/] route never closes the one it
    opens. *)
Theorem backend_connection_is_closed_on_success_only
  (now : datetime) (faults : op -> option string) (r : Backend.request)
  (w : world) :
  let '(res, w') := Backend.route now faults r w in
  exists tr, calls w' = (calls w ++ tr)%list
    /\ ((opened tr = 0%nat /\ closed tr = 0%nat)
        \/ (opened tr = 1%nat /\ closed tr = 1%nat
            /\ last tr = Some (ConnClose, true) /\ r <> Backend.Home
            /\ (status_of res = Some 200 \/ status_of res = Some 201
                \/ status_of res = Some 404))
        \/ (opened tr = 1%nat /\ closed tr = 0%nat
            /\ (status_of res = Some 500 \/ r = Backend.Home))).
Proof.
  destruct w as [tb nx wk iu cv cl lg].
  destruct r as [| |data|task_id data|task_id]; run_backend.
  all: trace_suffix.
  all: first
    [ left; split; reflexivity
    | right; left; split; [reflexivity|]; split; [reflexivity|];
      split; [reflexivity|]; split; [discriminate|]; simpl; auto; fail
    | right; right; split; [reflexivity|]; split; [reflexivity|];
      simpl; auto; fail ].
Qed.

(** X19: the create route of [src/backend/app.py] reads
    [data['assigned_to']]: a payload that passes validation but has no
    [assigned_to] is answered 500 with the text of the [KeyError], after
    the connection was opened and before any statement is executed; the
    table is unchanged and the connection is left open. *)
Theorem backend_create_needs_assigned_to
  (now : datetime) (faults : op -> option string) (data : payload)
  (w : world) :
  Backend.validate_task_data now data = Ok None ->
  data !! "assigned_to" = None ->
  faults Connect = None -> faults Cursor = None ->
  Backend.add_task now faults data w
  = (Ok (error_body "Database error: 'assigned_to'", 500),
     mkWorld (table w) (next_id w) (work w) (in_use w) (conn w)
       (calls w ++ [(Connect, true); (Cursor, true)])%list (logged w)).
Proof.
  intros Hv Ha Hc Hcu. destruct w as [tb nx wk iu cv cl lg].
  assert (exists n, getitem data "name" = Ok n) as [n Hn].
  { unfold Backend.validate_task_data, get, getitem in *.
    destruct (data !! "name"); [by eexists | done]. }
  unfold_backend. rewrite Hv. simpl. rewrite Hc. simpl. rewrite Hcu. simpl.
  rewrite Hn. simpl. unfold getitem at 1. rewrite Ha. simpl.
  by rewrite <- !app_assoc.
Qed.

Lemma backend_create_needs_assigned_to_witness :
  (Backend.add_task sample_now no_faults scenario_A empty_world).1
  = Ok (error_body "Database error: 'assigned_to'", 500).
Proof.
  rewrite (backend_create_needs_assigned_to sample_now no_faults scenario_A
             empty_world); reflexivity.
Defined.

Lemma backend_pairs faults :
  (forall o, faults o = None) ->
  forall w, (in_use w < maxconn)%nat -> work w = None ->
  (Backend.get_tasks faults w).1 = (Main.get_tasks faults w).1
  /\ table (Backend.get_tasks faults w).2 = table (Main.get_tasks faults w).2.
Proof.
  intros Hf [tb nx wk iu cv cl lg] Hiu Hwk. simpl in *. subst.
  apply pool_available in Hiu.
  unfold_backend. unfold_route. rewrite ?Hf, ?Hiu. simpl.
  rewrite ?Hf. unfold run_sql. simpl. by rewrite ?Hf.
Qed.

(** X22: the two services agree when the store raises no error.  Started
    on the same world with no transaction open and a free connection in the
    pool, the list routes of [src/backend/app.py] and [src/app/main.py]
    return the same answer, and so do the delete routes and the update
    routes on a payload whose progress is an integer; the tables they leave
    are the same. *)
Theorem services_agree_without_store_error
  (faults : op -> option string) (w : world) :
  (forall o, faults o = None) ->
  (in_use w < maxconn)%nat -> work w = None ->
  ((Backend.get_tasks faults w).1 = (Main.get_tasks faults w).1
   /\ table (Backend.get_tasks faults w).2
      = table (Main.get_tasks faults w).2)
  /\ (forall task_id,
        (Backend.delete_task faults task_id w).1
        = (Main.delete_task faults task_id w).1
        /\ table (Backend.delete_task faults task_id w).2
           = table (Main.delete_task faults task_id w).2)
  /\ (forall task_id data p,
        data !! "progress" = Some (JInt p) ->
        (Backend.update_task faults task_id data w).1
        = (Main.update_task faults task_id data w).1
        /\ table (Backend.update_task faults task_id data w).2
           = table (Main.update_task faults task_id data w).2).
Proof.
  intros Hf Hiu Hwk. split; [by apply backend_pairs|].
  destruct w as [tb nx wk iu cv cl lg]. simpl in *. subst.
  apply pool_available in Hiu. split.
  - intros task_id. unfold_backend. unfold_route. rewrite ?Hf, ?Hiu. simpl.
    rewrite ?Hf. unfold run_sql. simpl.
    destruct (count_id task_id tb =? 0); simpl; [done|].
    by rewrite ?Hf.
  - intros task_id data p Hd. unfold_backend. unfold_route.
    rewrite Hd. simpl.
    destruct ((0 <=? p) && (p <=? 100)) eqn:Hp; simpl; [|done].
    rewrite ?Hf, ?Hiu. simpl. rewrite ?Hf. unfold getitem. rewrite Hd.
    unfold run_sql. rewrite as_integer_bounded by lia. simpl.
    destruct (count_id task_id tb =? 0); simpl; [done|].
    by rewrite ?Hf.
Qed.

Lemma services_agree_without_store_error_witness :
  (Backend.delete_task no_faults 1 one_task_world).1
  = (Main.delete_task no_faults 1 one_task_world).1.
Proof.
  refine (proj1 (proj1 (proj2
    (services_agree_without_store_error no_faults one_task_world _ _ _)) 1));
    [reflexivity | vm_compute; lia | reflexivity].
Defined.

(** ** Transactions and the log *)

(** X23: no route of [src/app/main.py] leaves a transaction open: started
    with none, a run ends with none, whichever call raised - what was
    executed is committed, rolled back, or dropped when the connection goes
    back to the pool. *)
Theorem no_transaction_left_open
  (now : datetime) (faults : op -> option string) (r : Main.request)
  (w : world) :
  work w = None -> work (Main.route now faults r w).2 = None.
Proof.
  destruct w as [tb nx wk iu cv cl lg]. simpl. intros ->.
  destruct r as [|data|task_id data|task_id]; by run_route.
Qed.

Lemma no_transaction_left_open_witness :
  work (Main.route sample_now (fault_at Commit "server closed the connection")
          (Main.PostTask scenario_A) empty_world).2 = None.
Proof. apply no_transaction_left_open. reflexivity. Defined.

(** X20: the text of a store error goes to the log and not to the client.
    When the first call of a run that raises is a call other than the
    rollback that the store made raise with some text, the routes of
    [src/app/main.py] write the line "Database error: " followed by that
    text to the log, and the answer is one of the fixed bodies of status
    500.  Nothing else is logged, except the line of Flask, "Exception on
    <path> [<method>]", when an exception leaves the route - the rollback
    of the [except] clause raised, or there was no connection to roll
    back.  (What a rollback itself raises is not logged.) *)
Theorem store_error_text_is_logged
  (now : datetime) (faults : op -> option string) (method path : string)
  (r : Main.request) (w : world) :
  let '(res, _) := Main.route now faults r w in
  let '(resp, w') := Main.serve method path (Main.route now faults r) w in
  exists tr, calls w' = (calls w ++ tr)%list
    /\ match first_failed tr with
       | Some o =>
           o <> Rollback ->
           match faults o with
           | Some text =>
               logged w'
               = (logged w
                  ++ ("Database error: " +:+ text)
                     :: match res with
                        | Ok _ => []
                        | Raise _ => [Main.exception_line method path]
                        end)%list
               /\ resp.2 = 500
               /\ resp.1 ∈ error_body "Failed to retrieve tasks"
                            :: generic_bodies
           | None => True
           end
       | None => True
       end.
Proof.
  destruct w as [tb nx wk iu cv cl lg].
  destruct r as [|data|task_id data|task_id]; run_route.
  all: trace_suffix.
  all: simpl; try exact I; intros Hne; try (by destruct Hne).
  all: repeat match goal with
              | H : ?f ?o = _ |- context [match ?f ?o with _ => _ end] =>
                  rewrite H
              end;
    try exact I.
  all: split; [by rewrite <- ?app_assoc|]; split; [reflexivity|].
  all: unfold generic_bodies; set_solver.
Qed.
